(** * Trusture: the NGO transparency ledger, embedded in Rocq

    A shallow embedding of the transactional core of the repository
    (packages [crypto], [blockchain], [transactions], [entities] and
    [platform]) together with the properties its specification states.

    Conventions of the embedding.
    - A Go [string] or [[]byte] is a [string] (a sequence of 8-bit characters).
    - A Go [int] is a [Z]; where the code increments or narrows one, the
      64-bit wrap-around is written out ([wrap64]).
    - A Go [float64] amount, score or rate is the rational number it denotes
      ([Q]); [0.01] is [1#100].  Rounding of binary floating point is not
      part of the model.
    - [interface{}] values and [map[string]interface{}] payloads are the
      trees of [GoValue].
    - A pointer receiver that is mutated becomes a value that is passed in
      and returned.
    - [time.Now], [crypto/rand] and panics are effects of the [Go] monad: a
      [World] supplies the successive clock readings and random bytes.
    - [sha256.Sum256] and [hex.EncodeToString] are implemented; the
      formatting routines that only feed hashes ([json.Marshal], [%v],
      [%.2f], base64, the calendar year of an instant) are the fields of a
      [GoRuntime]. *)

From Stdlib Require Import ZArith NArith QArith Qabs List String Ascii Bool Uint63 Lia Lqa.
From stdpp Require Import base option gmap strings pretty.
Import ListNotations.

Local Open Scope string_scope.

(** ** The Go runtime and standard library *)

Module golang.

(** *** package strings *)

Definition HasPrefix (s prefix : string) : bool := String.prefix prefix s.

Fixpoint Contains (s substr : string) : bool :=
  String.prefix substr s ||
  match s with
  | EmptyString => false
  | String _ rest => Contains rest substr
  end.

Definition is_upper (c : ascii) : bool :=
  let n := N_of_ascii c in ((65 <=? n) && (n <=? 90))%N.
Definition is_lower (c : ascii) : bool :=
  let n := N_of_ascii c in ((97 <=? n) && (n <=? 122))%N.
Definition is_digit (c : ascii) : bool :=
  let n := N_of_ascii c in ((48 <=? n) && (n <=? 57))%N.

Definition lower_ascii (c : ascii) : ascii :=
  if is_upper c then ascii_of_N (N_of_ascii c + 32) else c.
Definition upper_ascii (c : ascii) : ascii :=
  if is_lower c then ascii_of_N (N_of_ascii c - 32) else c.

Fixpoint map_string (f : ascii -> ascii) (s : string) : string :=
  match s with
  | EmptyString => EmptyString
  | String c rest => String (f c) (map_string f rest)
  end.

(** [strings.ToLower] and [strings.ToUpper] on the ASCII letters (every
    string the code passes to them is ASCII). *)
Definition ToLower : string -> string := map_string lower_ascii.
Definition ToUpper : string -> string := map_string upper_ascii.

Fixpoint Repeat (s : string) (count : nat) : string :=
  match count with
  | O => EmptyString
  | S n => s ++ Repeat s n
  end.

(** *** integers *)

Definition wrap64 (z : Z) : Z := ((z + 2 ^ 63) mod 2 ^ 64 - 2 ^ 63)%Z.
Definition maxInt64 : Z := (2 ^ 63 - 1)%Z.
Definition minInt64 : Z := (- 2 ^ 63)%Z.

(** The verb [%d] of package fmt. *)
Definition Sprintf_d (z : Z) : string := pretty z.

(** *** package encoding/hex *)

Definition hexdigit (n : N) : ascii :=
  match n with
  | 0 => "0" | 1 => "1" | 2 => "2" | 3 => "3" | 4 => "4" | 5 => "5"
  | 6 => "6" | 7 => "7" | 8 => "8" | 9 => "9" | 10 => "a" | 11 => "b"
  | 12 => "c" | 13 => "d" | 14 => "e" | _ => "f"
  end%N%char.

Fixpoint EncodeToString (src : string) : string :=
  match src with
  | EmptyString => EmptyString
  | String b rest =>
      let n := N_of_ascii b in
      String (hexdigit (n / 16)) (String (hexdigit (n mod 16)) (EncodeToString rest))
  end.

(** [hex.DecodeString] on the output of [EncodeToString]: the value of a
    digit, and the bytes of a string of pairs of digits. *)
Definition unhex (c : ascii) : N :=
  let n := N_of_ascii c in if (n <? 58)%N then (n - 48)%N else (n - 87)%N.

Fixpoint DecodeString (s : string) : string :=
  match s with
  | String hi (String lo rest) =>
      String (ascii_of_N (unhex hi * 16 + unhex lo)) (DecodeString rest)
  | _ => EmptyString
  end.

(** *** package regexp: the two patterns of the repository

    Both patterns are anchored sequences of character classes, each taken
    once; [match_classes] is [MatchString] for such a pattern ([$] without
    flags is the end of the text). *)

Fixpoint match_classes (classes : list (ascii -> bool)) (s : string) : bool :=
  match classes, s with
  | [], EmptyString => true
  | cl :: classes', String c rest => cl c && match_classes classes' rest
  | _, _ => false
  end.

Definition class_09 : ascii -> bool := is_digit.
Definition class_AZ : ascii -> bool := is_upper.
Definition class_af09 (c : ascii) : bool :=
  let n := N_of_ascii c in ((97 <=? n) && (n <=? 102))%N || is_digit c.
Definition class_19AZ (c : ascii) : bool :=
  let n := N_of_ascii c in ((49 <=? n) && (n <=? 57))%N || is_upper c.
Definition class_09AZ (c : ascii) : bool := is_digit c || is_upper c.
Definition class_lit (l : ascii) (c : ascii) : bool := Ascii.eqb l c.


(** *** package crypto/sha256 (FIPS 180-4), on 32-bit words held in [int] *)

Module sha256.
Local Open Scope uint63_scope.

Definition mask32 : int := 0xFFFFFFFF.
Definition add32 (a b : int) : int := (a + b) land mask32.
Definition rotr (n x : int) : int := ((x >> n) lor (x << (32 - n))) land mask32.
Definition Ch (x y z : int) : int := (x land y) lxor ((x lxor mask32) land z).
Definition Maj (x y z : int) : int := (x land y) lxor (x land z) lxor (y land z).
Definition bsig0 (x : int) : int := rotr 2 x lxor rotr 13 x lxor rotr 22 x.
Definition bsig1 (x : int) : int := rotr 6 x lxor rotr 11 x lxor rotr 25 x.
Definition ssig0 (x : int) : int := rotr 7 x lxor rotr 18 x lxor (x >> 3).
Definition ssig1 (x : int) : int := rotr 17 x lxor rotr 19 x lxor (x >> 10).

(** The constants of FIPS 180-4: the first 32 bits of the fractional parts
    of the cube roots ([K]) and of the square roots ([H0]) of the first
    primes. *)
Definition is_prime (n : nat) : bool :=
  forallb (fun d => negb (n mod d =? 0)%nat) (seq 2 (n - 2)).
Definition primes (below : nat) : list Z :=
  map Z.of_nat (filter (fun n => is_prime n = true) (seq 2 (below - 2))).

(** The integer cube root, a bit at a time. *)
Definition cube_root (n : Z) : Z :=
  fold_left (fun r b => let r' := (r + 2 ^ Z.of_nat b)%Z in
                        if (r' * r' * r' <=? n)%Z then r' else r)
            (rev (seq 0 40)) 0%Z.

Definition frac32 (root : Z) : int := of_Z (root mod 2 ^ 32).

Definition K : list int :=
  Eval vm_compute in map (fun p => frac32 (cube_root (p * 2 ^ 96))) (primes 312).

Definition initial_words : list int :=
  Eval vm_compute in map (fun p => frac32 (Z.sqrt (p * 2 ^ 64))) (primes 20).

Record digest_state := mkState
  { ha : int; hb : int; hc : int; hd : int; he : int; hf : int; hg : int; hh : int }.

Definition H0 : digest_state :=
  mkState (nth 0 initial_words 0) (nth 1 initial_words 0) (nth 2 initial_words 0)
          (nth 3 initial_words 0) (nth 4 initial_words 0) (nth 5 initial_words 0)
          (nth 6 initial_words 0) (nth 7 initial_words 0).

(** The message schedule: [win] is the window of the last sixteen words,
    oldest first; [n] words are produced. *)
Fixpoint schedule (n : nat) (win : list int) : list int :=
  match n, win with
  | S n', w0 :: rest =>
      let w16 := add32 (add32 (ssig1 (nth 13 rest 0)) (nth 8 rest 0))
                       (add32 (ssig0 (nth 0 rest 0)) w0) in
      w0 :: schedule n' (rest ++ [w16])
  | _, _ => []
  end.

Definition round (s : digest_state) (kw : int * int) : digest_state :=
  let t1 := add32 (add32 (add32 (hh s) (bsig1 (he s)))
                         (add32 (Ch (he s) (hf s) (hg s)) (fst kw))) (snd kw) in
  let t2 := add32 (bsig0 (ha s)) (Maj (ha s) (hb s) (hc s)) in
  mkState (add32 t1 t2) (ha s) (hb s) (hc s) (add32 (hd s) t1) (he s) (hf s) (hg s).

Definition compress (s : digest_state) (block : list int) : digest_state :=
  let r := fold_left round (combine K (schedule 64 block)) s in
  mkState (add32 (ha s) (ha r)) (add32 (hb s) (hb r)) (add32 (hc s) (hc r))
          (add32 (hd s) (hd r)) (add32 (he s) (he r)) (add32 (hf s) (hf r))
          (add32 (hg s) (hg r)) (add32 (hh s) (hh r)).

Definition byte_of_ascii (c : ascii) : int := of_Z (Z.of_N (N_of_ascii c)).
Definition ascii_of_byte (b : int) : ascii := ascii_of_N (Z.to_N (to_Z (b land 0xFF))).

Fixpoint words (bs : list int) : list int :=
  match bs with
  | b0 :: b1 :: b2 :: b3 :: rest =>
      ((b0 << 24) lor (b1 << 16) lor (b2 << 8) lor b3) :: words rest
  | _ => []
  end.

Fixpoint blocks (n : nat) (ws : list int) : list (list int) :=
  match n, ws with
  | S n', _ :: _ => firstn 16 ws :: blocks n' (skipn 16 ws)
  | _, _ => []
  end.

(** Padding: the bit 1, zeros up to 56 modulo 64, the length in bits on
    eight bytes. *)
Definition pad (msg : list int) : list int :=
  let len := List.length msg in
  let bits := of_Z (Z.of_nat len * 8) in
  msg ++ [0x80] ++ repeat 0 ((119 - len mod 64) mod 64)%nat ++
  [ (bits >> 56) land 0xFF; (bits >> 48) land 0xFF; (bits >> 40) land 0xFF;
    (bits >> 32) land 0xFF; (bits >> 24) land 0xFF; (bits >> 16) land 0xFF;
    (bits >> 8) land 0xFF; bits land 0xFF ].

Definition word_bytes (w : int) : string :=
  String (ascii_of_byte (w >> 24)) (String (ascii_of_byte (w >> 16))
  (String (ascii_of_byte (w >> 8)) (String (ascii_of_byte w) EmptyString))).

(** [Sum256] returns the 32 bytes of the digest. *)
Definition Sum256 (data : string) : string :=
  let ws := words (pad (map byte_of_ascii (list_ascii_of_string data))) in
  let s := fold_left compress (blocks (List.length ws) ws) H0 in
  word_bytes (ha s) ++ word_bytes (hb s) ++ word_bytes (hc s) ++ word_bytes (hd s) ++
  word_bytes (he s) ++ word_bytes (hf s) ++ word_bytes (hg s) ++ word_bytes (hh s).

End sha256.

(** The idiom of the repository: [hex.EncodeToString] of [sha256.Sum256]. *)
Definition sha256_hex (data : string) : string := EncodeToString (sha256.Sum256 data).

(** *** package time

    An instant is its number of nanoseconds since the Unix epoch; a
    [Duration] is a 64-bit count of nanoseconds. *)

Module time.
Local Open Scope Z_scope.

Definition Time := Z.
Definition Duration := Z.

Definition Second : Duration := 1000000000.
Definition Hour : Duration := 3600 * Second.

(** January 1, year 1, 00:00:00 UTC. *)
Definition zeroTime : Time := -62135596800 * Second.
Definition IsZero (t : Time) : bool := t =? zeroTime.

Definition Unix (t : Time) : Z := t / Second.
Definition UnixNano (t : Time) : Z := wrap64 t.

(** [t.Sub(u)]: the difference, saturated at the ends of [Duration]. *)
Definition Sub (t u : Time) : Duration :=
  if maxInt64 <? t - u then maxInt64
  else if t - u <? minInt64 then minInt64
  else t - u.

Definition Hours (d : Duration) : Q := (inject_Z d / inject_Z Hour)%Q.

Definition After (t u : Time) : bool := u <? t.
Definition Before (t u : Time) : bool := t <? u.
Definition Equal (t u : Time) : bool := t =? u.

End time.

(** *** dynamic values: [interface{}], [map[string]interface{}], slices *)

#[local] Set Warnings "-register-all".
Inductive GoValue : Type :=
| VNil
| VBool (b : bool)
| VInt (z : Z)
| VFloat (q : Q)
| VString (s : string)
| VTime (t : time.Time)
| VStrings (l : list string)
| VSlice (l : list GoValue)
| VMap (m : list (string * GoValue))
| VStruct (fields : list (string * GoValue)).

(** [m[key]] on a map literal. *)
Fixpoint map_index (key : string) (m : list (string * GoValue)) : option GoValue :=
  match m with
  | [] => None
  | (k, v) :: rest => if String.eqb k key then Some v else map_index key rest
  end.

(** *** what the model takes from the Go libraries without implementing it

    [json_Marshal] answers [None] when [json.Marshal] returns an error. *)

Class GoRuntime := {
  json_Marshal : GoValue -> option string;
  Sprintf_v : GoValue -> string;
  Sprintf_f : nat -> Q -> string;
  base64_EncodeToString : string -> string;
  time_Year : time.Time -> Z
}.

(** *** effects: the clock, the random source, panics, loops that may not end *)

Record World := mkWorld {
  clock : nat -> time.Time;
  ticks : nat;
  entropy : nat -> ascii;
  drawn : nat
}.

Inductive Outcome (A : Type) : Type :=
| Returned (a : A) (w : World)
| Panicked (msg : string)
| OutOfFuel.
Arguments Returned {A} a w.
Arguments Panicked {A} msg.
Arguments OutOfFuel {A}.

Definition Go (A : Type) : Type := World -> Outcome A.

#[export] Instance Go_ret : MRet Go := fun A a w => Returned a w.
#[export] Instance Go_bind : MBind Go := fun A B k m w =>
  match m w with
  | Returned a w' => k a w'
  | Panicked msg => Panicked msg
  | OutOfFuel => OutOfFuel
  end.

Definition panic {A : Type} (msg : string) : Go A := fun _ => Panicked msg.
Definition spin {A : Type} : Go A := fun _ => OutOfFuel.

(** [time.Now()]: the next reading of the clock. *)
Definition time_Now : Go time.Time := fun w =>
  Returned (clock w (ticks w)) (mkWorld (clock w) (S (ticks w)) (entropy w) (drawn w)).

Fixpoint take_entropy (src : nat -> ascii) (from n : nat) : string :=
  match n with
  | O => EmptyString
  | S n' => String (src from) (take_entropy src (S from) n')
  end.

(** [rand.Read(b)] on a fresh slice of [n] bytes. *)
Definition rand_Read (n : nat) : Go string := fun w =>
  Returned (take_entropy (entropy w) (drawn w) n)
           (mkWorld (clock w) (ticks w) (entropy w) (n + drawn w)).

(** [time.Since(t)]. *)
Definition time_Since (t : time.Time) : Go time.Duration :=
  now ← time_Now; mret (time.Sub now t).

(** A Go function that returns [(T, error)]. *)
Inductive Result (A : Type) : Type :=
| Ok (a : A)
| Err (e : string).
Arguments Ok {A} a.
Arguments Err {A} e.


(** The builtin [append] with one element. *)
Definition append {A : Type} (s : list A) (x : A) : list A := (s ++ [x])%list.

(** [strings.Repeat] panics on a negative count. *)
Definition strings_Repeat (s : string) (count : Z) : Go string :=
  if (count <? 0)%Z then panic "strings: negative Repeat count"
  else mret (Repeat s (Z.to_nat count)).

(** Comparisons of [float64] values. *)
Definition Qgtb (a b : Q) : bool := negb (Qle_bool a b).
Definition Qltb (a b : Q) : bool := negb (Qle_bool b a).
Definition Qgeb (a b : Q) : bool := Qle_bool b a.


(** *** a runtime to run the model with

    [utc] renders values in the layout of the Go libraries on a machine whose
    local time zone is UTC: JSON with sorted map keys and escaped strings,
    instants in RFC 3339, a float by its exact decimal expansion (by
    numerator and denominator when it has none).  It makes the model
    executable; no theorem below depends on the bytes it produces. *)

Module utc.
Local Open Scope Z_scope.

Definition digits (width : nat) (z : Z) : string :=
  let s := Sprintf_d z in Repeat "0" (width - String.length s) ++ s.

(** The civil date of a day number (days since 1970-01-01). *)
Definition civil (days : Z) : Z * Z * Z :=
  let z := days + 719468 in
  let era := z / 146097 in
  let doe := z - era * 146097 in
  let yoe := (doe - doe / 1460 + doe / 36524 - doe / 146096) / 365 in
  let doy := doe - (365 * yoe + yoe / 4 - yoe / 100) in
  let mp := (5 * doy + 2) / 153 in
  let d := doy - (153 * mp + 2) / 5 + 1 in
  let m := if mp <? 10 then mp + 3 else mp - 9 in
  (yoe + era * 400 + (if m <=? 2 then 1 else 0), m, d).

Definition Year (t : time.Time) : Z := fst (fst (civil (time.Unix t / 86400))).

Fixpoint strip_zeros (fuel : nat) (s : string) : string :=
  match fuel with
  | O => s
  | S f =>
      let n := String.length s in
      if (String.substring (n - 1) 1 s =? "0")%string
      then strip_zeros f (String.substring 0 (n - 1) s) else s
  end.

Definition rfc3339 (t : time.Time) : string :=
  let sec := time.Unix t in
  let '(y, m, d) := civil (sec / 86400) in
  let sod := sec mod 86400 in
  let nsec := t mod 1000000000 in
  digits 4 y ++ "-" ++ digits 2 m ++ "-" ++ digits 2 d ++ "T" ++
  digits 2 (sod / 3600) ++ ":" ++ digits 2 (sod mod 3600 / 60) ++ ":" ++
  digits 2 (sod mod 60) ++
  (if nsec =? 0 then "" else "." ++ strip_zeros 9 (digits 9 nsec)) ++ "Z".

(** [q] with exactly [n] decimals, the last one rounded to even on a tie. *)
Definition fixed (n : nat) (q : Q) : string :=
  let scale := 10 ^ Z.of_nat n in
  let num := Z.abs (Qnum q) * scale in
  let den := Z.pos (Qden q) in
  let fl := num / den in
  let r := 2 * (num mod den) in
  let rounded := if (den <? r) || ((r =? den) && Z.odd fl) then fl + 1 else fl in
  (if (Qnum q <? 0) && negb (rounded =? 0) then "-" else "") ++
  Sprintf_d (rounded / scale) ++
  (if (n =? 0)%nat then "" else "." ++ digits n (rounded mod scale)).

Fixpoint decimals (fuel n : nat) (q : Q) : option nat :=
  if (Qnum q * 10 ^ Z.of_nat n) mod Z.pos (Qden q) =? 0 then Some n
  else match fuel with O => None | S f => decimals f (S n) q end.

Definition float (q : Q) : string :=
  match decimals 30 0 q with
  | Some n => fixed n q
  | None => Sprintf_d (Qnum q) ++ "/" ++ Sprintf_d (Z.pos (Qden q))
  end.

Definition hex4 (n : N) : string :=
  String (hexdigit (n / 4096)) (String (hexdigit (n / 256 mod 16))
  (String (hexdigit (n / 16 mod 16)) (String (hexdigit (n mod 16)) ""))).

Definition dquote : string := String (ascii_of_nat 34) "".

Definition escape (c : ascii) : string :=
  let n := N_of_ascii c in
  if (n =? 34)%N then String "\" dquote else
  if (n =? 92)%N then "\\" else
  if (n =? 10)%N then "\n" else
  if (n =? 13)%N then "\r" else
  if (n =? 9)%N then "\t" else
  if (n <? 32)%N || (n =? 60)%N || (n =? 62)%N || (n =? 38)%N then "\u" ++ hex4 n
  else String c "".

Fixpoint quote_body (s : string) : string :=
  match s with
  | EmptyString => ""
  | String c rest => escape c ++ quote_body rest
  end.
Definition quote (s : string) : string := dquote ++ quote_body s ++ dquote.

Fixpoint insert_sorted {A : Type} (kv : string * A) (l : list (string * A))
  : list (string * A) :=
  match l with
  | [] => [kv]
  | kv' :: rest =>
      if String.leb (fst kv) (fst kv') then kv :: l else kv' :: insert_sorted kv rest
  end.
Definition sort_keys {A : Type} (l : list (string * A)) : list (string * A) :=
  fold_right insert_sorted [] l.

Fixpoint join (sep : string) (l : list string) : string :=
  match l with
  | [] => ""
  | [s] => s
  | s :: rest => s ++ sep ++ join sep rest
  end.

Fixpoint marshal (v : GoValue) : string :=
  match v with
  | VNil => "null"
  | VBool b => if b then "true" else "false"
  | VInt z => Sprintf_d z
  | VFloat q => float q
  | VString s => quote s
  | VTime t => quote (rfc3339 t)
  | VStrings l => "[" ++ join "," (map quote l) ++ "]"
  | VSlice l => "[" ++ join "," (map marshal l) ++ "]"
  | VMap m =>
      "{" ++ join "," (map (fun kv => quote (fst kv) ++ ":" ++ snd kv)
                           (sort_keys (map (fun kv => (fst kv, marshal (snd kv))) m))) ++ "}"
  | VStruct fields =>
      "{" ++ join "," (map (fun kv => quote (fst kv) ++ ":" ++ marshal (snd kv)) fields) ++ "}"
  end.

Fixpoint display (v : GoValue) : string :=
  match v with
  | VNil => "<nil>"
  | VBool b => if b then "true" else "false"
  | VInt z => Sprintf_d z
  | VFloat q => float q
  | VString s => s
  | VTime t => rfc3339 t
  | VStrings l => "[" ++ join " " l ++ "]"
  | VSlice l => "[" ++ join " " (map display l) ++ "]"
  | VMap m =>
      "map[" ++ join " " (map (fun kv => fst kv ++ ":" ++ snd kv)
                              (sort_keys (map (fun kv => (fst kv, display (snd kv))) m))) ++ "]"
  | VStruct fields => "{" ++ join " " (map (fun kv => display (snd kv)) fields) ++ "}"
  end.

Definition b64char (n : N) : ascii :=
  if (n <? 26)%N then ascii_of_N (65 + n)
  else if (n <? 52)%N then ascii_of_N (71 + n)
  else if (n <? 62)%N then ascii_of_N (n - 4)
  else if (n =? 62)%N then "+"%char else "/"%char.

Fixpoint base64 (s : string) : string :=
  match s with
  | EmptyString => ""
  | String a EmptyString =>
      let x := N_of_ascii a in
      String (b64char (x / 4)) (String (b64char (x mod 4 * 16)) "==")
  | String a (String b EmptyString) =>
      let x := N_of_ascii a in let y := N_of_ascii b in
      String (b64char (x / 4)) (String (b64char (x mod 4 * 16 + y / 16))
      (String (b64char (y mod 16 * 4)) "="))
  | String a (String b (String c rest)) =>
      let x := N_of_ascii a in let y := N_of_ascii b in let z := N_of_ascii c in
      String (b64char (x / 4)) (String (b64char (x mod 4 * 16 + y / 16))
      (String (b64char (y mod 16 * 4 + z / 64)) (String (b64char (z mod 64)) (base64 rest))))
  end%N.

Definition runtime : GoRuntime := {|
  json_Marshal := fun v => Some (marshal v);
  Sprintf_v := display;
  Sprintf_f := fixed;
  base64_EncodeToString := base64;
  time_Year := Year
|}.

End utc.
End golang.
Import golang.

(** ** package crypto *)

Module crypto.
Section WithRuntime.
Context {rt : GoRuntime}.

(** ZKProof represents a zero-knowledge proof for donor anonymity.  The
    field [Proof] of the source is [Proof_] here. *)
Record ZKProof := mkZKProof {
  Commitment : string;
  Nullifier : string;
  Proof_ : string;
  Timestamp : time.Time
}.

Definition GenerateProof (donorID : string) (amount : Q) (timestamp : time.Time)
  : Go ZKProof :=
  timestamp ← (if time.IsZero timestamp then time_Now else mret timestamp);
  let commitmentData :=
    donorID ++ Sprintf_f 2 amount ++ Sprintf_d (time.UnixNano timestamp) in
  let commitment := sha256_hex commitmentData in
  let nullifierData := commitment ++ donorID in
  let nullifier := sha256_hex nullifierData in
  now ← time_Now;
  let proofData := commitment ++ nullifier ++ Sprintf_d (time.UnixNano now) in
  let proof := sha256_hex proofData in
  mret {| Commitment := commitment; Nullifier := nullifier;
          Proof_ := proof; Timestamp := timestamp |}.

(** The pattern [^[a-f0-9]{64}$]. *)
Definition hexPattern : list (ascii -> bool) := repeat class_af09 64.

(** [proof] is a pointer: [None] is [nil]. *)
Definition VerifyProof (proof : option ZKProof) (amount : Q) (timestamp : time.Time)
  : Go bool :=
  match proof with
  | None => mret false
  | Some proof =>
      if (Commitment proof =? "")%string || (Nullifier proof =? "")%string
         || (Proof_ proof =? "")%string
      then mret false
      else
        now ← time_Now;
        let timeDiff := Qabs (time.Hours (time.Sub now timestamp)) in
        if Qgtb timeDiff 24 then mret false
        else mret (match_classes hexPattern (Commitment proof) &&
                   match_classes hexPattern (Nullifier proof) &&
                   match_classes hexPattern (Proof_ proof))
  end.

(** The signer set of the multi-signature wallet; the pending and executed
    transactions of the wallet play no part in the ledger and are left out. *)
Record MultiSigWallet := mkMultiSigWallet {
  RequiredSignatures : Z;
  Signers : list string
}.

Definition NewMultiSigWallet (requiredSignatures : Z) : MultiSigWallet :=
  let requiredSignatures := if (requiredSignatures <? 1)%Z then 2%Z else requiredSignatures in
  {| RequiredSignatures := requiredSignatures; Signers := [] |}.

Definition AddSigner (w : MultiSigWallet) (address : string) : MultiSigWallet :=
  if existsb (String.eqb address) (Signers w) then w
  else {| RequiredSignatures := RequiredSignatures w; Signers := append (Signers w) address |}.

End WithRuntime.
End crypto.

(** ** package blockchain *)

Module blockchain.
Section WithRuntime.
Context {rt : GoRuntime}.
Local Open Scope Z_scope.

(** The field [Timestamp] of a validator is [ValidatorTimestamp] here. *)
Record Validator := mkValidator {
  ValidatorID : string;
  Signature : string;
  ValidationType : string;
  ValidatorTimestamp : time.Time
}.

Record Block := mkBlock {
  Index : Z;
  Timestamp : time.Time;
  Data : GoValue;
  PreviousHash : string;
  BlockType : string;
  Hash : string;
  Nonce : Z;
  Validated : bool;
  Validators : list Validator;
  MerkleRoot : string
}.

Definition set_Index (v : Z) (b : Block) : Block :=
  mkBlock v (Timestamp b) (Data b) (PreviousHash b) (BlockType b) (Hash b) (Nonce b)
          (Validated b) (Validators b) (MerkleRoot b).
Definition set_Timestamp (v : time.Time) (b : Block) : Block :=
  mkBlock (Index b) v (Data b) (PreviousHash b) (BlockType b) (Hash b) (Nonce b)
          (Validated b) (Validators b) (MerkleRoot b).
Definition set_Data (v : GoValue) (b : Block) : Block :=
  mkBlock (Index b) (Timestamp b) v (PreviousHash b) (BlockType b) (Hash b) (Nonce b)
          (Validated b) (Validators b) (MerkleRoot b).
Definition set_PreviousHash (v : string) (b : Block) : Block :=
  mkBlock (Index b) (Timestamp b) (Data b) v (BlockType b) (Hash b) (Nonce b)
          (Validated b) (Validators b) (MerkleRoot b).
Definition set_BlockType (v : string) (b : Block) : Block :=
  mkBlock (Index b) (Timestamp b) (Data b) (PreviousHash b) v (Hash b) (Nonce b)
          (Validated b) (Validators b) (MerkleRoot b).
Definition set_Hash (v : string) (b : Block) : Block :=
  mkBlock (Index b) (Timestamp b) (Data b) (PreviousHash b) (BlockType b) v (Nonce b)
          (Validated b) (Validators b) (MerkleRoot b).
Definition set_Nonce (v : Z) (b : Block) : Block :=
  mkBlock (Index b) (Timestamp b) (Data b) (PreviousHash b) (BlockType b) (Hash b) v
          (Validated b) (Validators b) (MerkleRoot b).
Definition set_Validated (v : bool) (b : Block) : Block :=
  mkBlock (Index b) (Timestamp b) (Data b) (PreviousHash b) (BlockType b) (Hash b) (Nonce b)
          v (Validators b) (MerkleRoot b).
Definition set_Validators (v : list Validator) (b : Block) : Block :=
  mkBlock (Index b) (Timestamp b) (Data b) (PreviousHash b) (BlockType b) (Hash b) (Nonce b)
          (Validated b) v (MerkleRoot b).
Definition set_MerkleRoot (v : string) (b : Block) : Block :=
  mkBlock (Index b) (Timestamp b) (Data b) (PreviousHash b) (BlockType b) (Hash b) (Nonce b)
          (Validated b) (Validators b) v.

(** [json.Marshal(b.Data)], with the fallback [%v] of the source on an error. *)
Definition dataBytes (data : GoValue) : string :=
  match json_Marshal data with
  | Some bytes => bytes
  | None => Sprintf_v data
  end.

(** The text the block hash is taken of: ["%d%s%d%s%d%s%s"]. *)
Definition record (b : Block) : string :=
  Sprintf_d (Index b) ++ PreviousHash b ++ Sprintf_d (time.UnixNano (Timestamp b)) ++
  dataBytes (Data b) ++ Sprintf_d (Nonce b) ++ BlockType b ++ MerkleRoot b.

Definition calculateHash (b : Block) : string := sha256_hex (record b).

Definition calculateMerkleRoot (b : Block) : string := sha256_hex (dataBytes (Data b)).

Definition NewBlock (index : Z) (timestamp : time.Time) (data : GoValue)
    (previousHash blockType : string) : Go Block :=
  timestamp ← (if time.IsZero timestamp then time_Now else mret timestamp);
  let blockType := if (blockType =? "")%string then "donation"%string else blockType in
  let block := mkBlock index timestamp data previousHash blockType "" 0 false [] "" in
  let block := set_MerkleRoot (calculateMerkleRoot block) block in
  let block := set_Hash (calculateHash block) block in
  mret block.

(** The loop of [MineBlock]: [fuel] bounds the number of nonces tried. *)
Fixpoint mine_loop (fuel : nat) (target : string) (b : Block) : option Block :=
  if HasPrefix (Hash b) target then Some b
  else match fuel with
       | O => None
       | S fuel' =>
           let b := set_Nonce (wrap64 (Nonce b + 1)) b in
           let b := set_Hash (calculateHash b) b in
           mine_loop fuel' target b
       end.

Definition MineBlock (fuel : nat) (b : Block) (difficulty : Z) : Go Block :=
  target ← strings_Repeat "0" difficulty;
  match mine_loop fuel target b with
  | Some b' => mret b'
  | None => spin
  end.

Definition AddValidator (b : Block) (validatorID signature validationType : string)
  : Go Block :=
  let validationType :=
    if (validationType =? "")%string then "general"%string else validationType in
  now ← time_Now;
  let validator := mkValidator validatorID signature validationType now in
  mret (set_Validators (append (Validators b) validator) b).

Definition IsValid (b : Block) : bool :=
  (Hash b =? calculateHash b)%string && Validated b.

Definition GetValidatorsCount (b : Block) : Z := Z.of_nat (length (Validators b)).

Definition Validate (b : Block) : Block := set_Validated true b.

Record Blockchain := mkBlockchain {
  NGOID : string;
  ChainType : string;
  Chain : list Block;
  Difficulty : Z;
  PendingBlocks : list Block;
  NetworkNodes : list string
}.

Definition set_Chain (v : list Block) (bc : Blockchain) : Blockchain :=
  mkBlockchain (NGOID bc) (ChainType bc) v (Difficulty bc) (PendingBlocks bc)
               (NetworkNodes bc).

Definition createGenesisBlock (bc : Blockchain) : Go Block :=
  let genesisData := VMap
    [ ("type", VString "genesis");
      ("ngo_id", VString (NGOID bc));
      ("chain_type", VString (ChainType bc));
      ("message", VString ("Genesis block for " ++ ChainType bc ++
                           " chain of NGO " ++ NGOID bc)) ] in
  now ← time_Now;
  genesisBlock ← NewBlock 0 now genesisData "0" (ChainType bc);
  let genesisBlock := set_Validated true genesisBlock in
  AddValidator genesisBlock "system" "genesis_signature" "genesis".

Definition NewBlockchain (ngoID chainType : string) (difficulty : Z) : Go Blockchain :=
  let difficulty := if difficulty <? 1 then 2 else difficulty in
  let chainType :=
    if negb (chainType =? "donation")%string && negb (chainType =? "expenditure")%string
    then "donation"%string else chainType in
  let blockchain := mkBlockchain ngoID chainType [] difficulty [] [] in
  genesisBlock ← createGenesisBlock blockchain;
  mret (set_Chain [genesisBlock] blockchain).

(** [GetLatestBlock] returns [nil] on an empty chain. *)
Definition GetLatestBlock (bc : Blockchain) : option Block := last (Chain bc).

Definition GetChainLength (bc : Blockchain) : Z := Z.of_nat (length (Chain bc)).

Definition GetBlockByIndex (bc : Blockchain) (index : Z) : option Block :=
  if (index <? 0) || (Z.of_nat (length (Chain bc)) <=? index) then None
  else Chain bc !! Z.to_nat index.

Definition validateBlockInternal (bc : Blockchain) (block : Block) : Go bool :=
  match last (Chain bc) with
  | None => mret false
  | Some previousBlock =>
      if negb (PreviousHash block =? Hash previousBlock)%string then mret false
      else if negb (Hash block =? calculateHash block)%string then mret false
      else
        target ← strings_Repeat "0" (Difficulty bc);
        if negb (HasPrefix (Hash block) target) then mret false
        else mret true
  end.

(** [AddBlock] writes through the pointer it is given: the block as the
    call leaves it is returned beside the answer and the chain. *)
Definition AddBlock (fuel : nat) (bc : Blockchain) (newBlock : Block)
  : Go (bool * Blockchain * Block) :=
  match last (Chain bc) with
  | None => panic "index out of range [-1]"
  | Some latestBlock =>
      let newBlock := set_PreviousHash (Hash latestBlock) newBlock in
      let newBlock := set_Index (Z.of_nat (length (Chain bc))) newBlock in
      newBlock ← MineBlock fuel newBlock (Difficulty bc);
      ok ← validateBlockInternal bc newBlock;
      if (ok : bool) then mret (true, set_Chain (append (Chain bc) newBlock) bc, newBlock)
      else mret (false, bc, newBlock)
  end.

(** The loop of [IsChainValid] over the blocks after [previousBlock]. *)
Fixpoint valid_from (previousBlock : Block) (rest : list Block) : bool :=
  match rest with
  | [] => true
  | currentBlock :: rest' =>
      if negb (IsValid currentBlock) then false
      else if negb (PreviousHash currentBlock =? Hash previousBlock)%string then false
      else valid_from currentBlock rest'
  end.

Definition IsChainValid (bc : Blockchain) : bool :=
  match Chain bc with
  | [] => true
  | genesis :: rest => valid_from genesis rest
  end.

End WithRuntime.
End blockchain.

(** ** package transactions *)

Module transactions.

(** The field [Section] of the source is [Section_] here. *)
Module TaxBenefit.
Record t := mk {
  Section_ : string;
  DeductibleAmount : Q;
  TaxSaving : Q;
  Note : string
}.
End TaxBenefit.

Module EBill.
Record t := mk {
  BillID : string;
  TransactionID : string;
  Amount : Q;
  Currency : string;
  Timestamp : time.Time;
  NGOID : string;
  DonorHash : string;
  PaymentMethod : string;
  TaxBenefit : TaxBenefit.t;
  ReceiptNumber : string;
  Signature : string;
  QRCode : string;
  DownloadURL : string;
  ValidityPeriod : string
}.

Definition set_Signature (v : string) (e : t) : t :=
  mk (BillID e) (TransactionID e) (Amount e) (Currency e) (Timestamp e) (NGOID e)
     (DonorHash e) (PaymentMethod e) (TaxBenefit e) (ReceiptNumber e) v (QRCode e)
     (DownloadURL e) (ValidityPeriod e).
Definition set_QRCode (v : string) (e : t) : t :=
  mk (BillID e) (TransactionID e) (Amount e) (Currency e) (Timestamp e) (NGOID e)
     (DonorHash e) (PaymentMethod e) (TaxBenefit e) (ReceiptNumber e) (Signature e) v
     (DownloadURL e) (ValidityPeriod e).
End EBill.

(** [ZKProof], [EBill], [CompletedAt] and [FailedAt] are pointers: [None]
    is [nil]. *)
Module DonationTransaction.
Record t := mk {
  TransactionID : string;
  DonorID : string;
  NGOID : string;
  Amount : Q;
  PaymentMethod : string;
  Timestamp : time.Time;
  Status : string;
  DonorKYCHash : string;
  ZKProof : option crypto.ZKProof;
  EBill : option EBill.t;
  CompletedAt : option time.Time;
  FailedAt : option time.Time;
  FailureReason : string
}.

Definition set_ZKProof (v : option crypto.ZKProof) (d : t) : t :=
  mk (TransactionID d) (DonorID d) (NGOID d) (Amount d) (PaymentMethod d) (Timestamp d)
     (Status d) (DonorKYCHash d) v (EBill d) (CompletedAt d) (FailedAt d) (FailureReason d).
Definition set_EBill (v : option EBill.t) (d : t) : t :=
  mk (TransactionID d) (DonorID d) (NGOID d) (Amount d) (PaymentMethod d) (Timestamp d)
     (Status d) (DonorKYCHash d) (ZKProof d) v (CompletedAt d) (FailedAt d) (FailureReason d).
Definition set_completed (at_ : time.Time) (d : t) : t :=
  mk (TransactionID d) (DonorID d) (NGOID d) (Amount d) (PaymentMethod d) (Timestamp d)
     "completed" (DonorKYCHash d) (ZKProof d) (EBill d) (Some at_) (FailedAt d)
     (FailureReason d).
Definition set_failed (at_ : time.Time) (reason : string) (d : t) : t :=
  mk (TransactionID d) (DonorID d) (NGOID d) (Amount d) (PaymentMethod d) (Timestamp d)
     "failed" (DonorKYCHash d) (ZKProof d) (EBill d) (CompletedAt d) (Some at_) reason.
End DonationTransaction.

Section Donation.
Context {rt : GoRuntime}.
Import DonationTransaction.

(** 80G deduction calculation (simplified). *)
Definition calculateTaxBenefit (dt : DonationTransaction.t) : TaxBenefit.t :=
  let maxDeduction := if Qle_bool (Amount dt) 10000 then Amount dt else 10000%Q in
  {| TaxBenefit.Section_ := "80G";
     TaxBenefit.DeductibleAmount := maxDeduction;
     TaxBenefit.TaxSaving := (maxDeduction * (3 # 10))%Q;
     TaxBenefit.Note := "Consult tax advisor for accurate calculations" |}.

Definition TaxBenefit_value (tb : TaxBenefit.t) : GoValue :=
  VStruct [ ("section", VString (TaxBenefit.Section_ tb));
            ("deductible_amount", VFloat (TaxBenefit.DeductibleAmount tb));
            ("tax_saving", VFloat (TaxBenefit.TaxSaving tb));
            ("note", VString (TaxBenefit.Note tb)) ].

Definition generateQRCode (billData : EBill.t) : string :=
  let qrData := VMap
    [ ("bill_id", VString (EBill.BillID billData));
      ("amount", VFloat (EBill.Amount billData));
      ("ngo_id", VString (EBill.NGOID billData));
      ("timestamp", VInt (time.Unix (EBill.Timestamp billData))) ] in
  let qrBytes := default "" (json_Marshal qrData) in
  "QR:" ++ base64_EncodeToString qrBytes.

(** The fields the signature covers: the bill without its signature, QR
    code and download URL. *)
Definition signatureData (billData : EBill.t) : GoValue :=
  VMap
    [ ("bill_id", VString (EBill.BillID billData));
      ("transaction_id", VString (EBill.TransactionID billData));
      ("amount", VFloat (EBill.Amount billData));
      ("currency", VString (EBill.Currency billData));
      ("timestamp", VInt (time.Unix (EBill.Timestamp billData)));
      ("ngo_id", VString (EBill.NGOID billData));
      ("donor_hash", VString (EBill.DonorHash billData));
      ("payment_method", VString (EBill.PaymentMethod billData));
      ("tax_benefit", TaxBenefit_value (EBill.TaxBenefit billData));
      ("receipt_number", VString (EBill.ReceiptNumber billData));
      ("validity_period", VString (EBill.ValidityPeriod billData)) ].

(** [signatureBytes, _ := json.Marshal(signatureData)]: on an error the
    bytes are empty. *)
Definition signatureBytes (billData : EBill.t) : string :=
  default "" (json_Marshal (signatureData billData)).

Definition generateBillSignature (billData : EBill.t) : string :=
  sha256_hex (signatureBytes billData).

Definition generateEBill (dt : DonationTransaction.t) : Go EBill.t :=
  randomBytes ← rand_Read 12;
  let billID := EncodeToString randomBytes in
  let donorHash := sha256_hex (DonorID dt) in
  let taxBenefit := calculateTaxBenefit dt in
  let receiptNumber :=
    "RCP-" ++ Sprintf_d (time.Unix (Timestamp dt)) ++ "-" ++
    ToUpper (EncodeToString (String.substring 0 5 randomBytes)) in
  let billData :=
    EBill.mk billID (TransactionID dt) (Amount dt) "INR" (Timestamp dt) (NGOID dt)
             donorHash (PaymentMethod dt) taxBenefit receiptNumber "" ""
             ("https://receipts.ngo/" ++ billID) "7 years" in
  let billData := EBill.set_Signature (generateBillSignature billData) billData in
  let billData := EBill.set_QRCode (generateQRCode billData) billData in
  mret billData.

Definition NewDonationTransaction (donorID ngoID : string) (amount : Q)
    (paymentMethod donorKYCHash : string) : Go DonationTransaction.t :=
  randomBytes ← rand_Read 16;
  let transactionID := EncodeToString randomBytes in
  timestamp ← time_Now;
  let transaction :=
    DonationTransaction.mk transactionID donorID ngoID amount paymentMethod timestamp
                           "pending" donorKYCHash None None None None "" in
  proof ← crypto.GenerateProof donorID amount timestamp;
  let transaction := set_ZKProof (Some proof) transaction in
  bill ← generateEBill transaction;
  let transaction := set_EBill (Some bill) transaction in
  mret transaction.

Definition ValidateEBill (dt : DonationTransaction.t) : bool :=
  match EBill dt with
  | None => false
  | Some bill =>
      let originalSignature := EBill.Signature bill in
      let recalculatedSignature := generateBillSignature bill in
      (originalSignature =? recalculatedSignature)%string
  end.

Definition MarkComplete (dt : DonationTransaction.t) : Go DonationTransaction.t :=
  now ← time_Now; mret (set_completed now dt).

Definition MarkFailed (dt : DonationTransaction.t) (reason : string)
  : Go DonationTransaction.t :=
  now ← time_Now; mret (set_failed now reason dt).

Definition IsCompleted (dt : DonationTransaction.t) : bool := (Status dt =? "completed")%string.
Definition IsFailed (dt : DonationTransaction.t) : bool := (Status dt =? "failed")%string.
Definition IsPending (dt : DonationTransaction.t) : bool := (Status dt =? "pending")%string.

End Donation.

Module InvoiceDetails.
Record t := mk {
  InvoiceNumber : string;
  GSTIN : string;
  VendorName : string;
  VendorGSTIN : string;
  InvoiceDate : time.Time;
  Documents : list string;
  BankTransactionID : string;
  ChequeNumber : string
}.
End InvoiceDetails.

Module Attachment.
Record t := mk {
  Filename : string;
  Hash : string;
  Type_ : string;
  UploadedAt : time.Time
}.
End Attachment.

Module AuditorValidation.
Record t := mk {
  AuditorID : string;
  IsValid : bool;
  Remarks : string;
  AuditScore : Q;
  Timestamp : time.Time;
  Signature : string
}.
End AuditorValidation.

Module ExpenditureTransaction.
Record t := mk {
  TransactionID : string;
  NGOID : string;
  Amount : Q;
  Category : string;
  Description : string;
  Timestamp : time.Time;
  InvoiceDetails : InvoiceDetails.t;
  Attachments : list Attachment.t;
  Status : string;
  AuditorValidation : option AuditorValidation.t;
  ComplianceScore : Q
}.

Definition set_ComplianceScore (v : Q) (e : t) : t :=
  mk (TransactionID e) (NGOID e) (Amount e) (Category e) (Description e) (Timestamp e)
     (InvoiceDetails e) (Attachments e) (Status e) (AuditorValidation e) v.
Definition set_Attachments (v : list Attachment.t) (e : t) : t :=
  mk (TransactionID e) (NGOID e) (Amount e) (Category e) (Description e) (Timestamp e)
     (InvoiceDetails e) v (Status e) (AuditorValidation e) (ComplianceScore e).
Definition set_validation (v : AuditorValidation.t) (status : string) (e : t) : t :=
  mk (TransactionID e) (NGOID e) (Amount e) (Category e) (Description e) (Timestamp e)
     (InvoiceDetails e) (Attachments e) status (Some v) (ComplianceScore e).
End ExpenditureTransaction.

Section Expenditure.
Context {rt : GoRuntime}.
Import ExpenditureTransaction.

(** The pattern
    [^[0-9]{2}[A-Z]{5}[0-9]{4}[A-Z]{1}[1-9A-Z]{1}Z[0-9A-Z]{1}$]. *)
Definition gstinRegex : list (ascii -> bool) :=
  repeat class_09 2 ++ repeat class_AZ 5 ++ repeat class_09 4 ++
  [class_AZ; class_19AZ; class_lit "Z"; class_09AZ].

Definition VerifyGSTIN (gstin : string) : bool :=
  if (gstin =? "")%string then false
  else match_classes gstinRegex gstin.

Definition calculateComplianceScore (et : ExpenditureTransaction.t) : Go Q :=
  let inv := InvoiceDetails et in
  let score := 0%Q in
  let maxScore := 100%Q in
  (* Invoice number present (20%) *)
  let score := if negb (InvoiceDetails.InvoiceNumber inv =? "")%string
               then (score + 20)%Q else score in
  (* GSTIN validation (20%) *)
  let score := if VerifyGSTIN (InvoiceDetails.GSTIN inv) then (score + 20)%Q else score in
  (* Vendor details complete (15%) *)
  let score := if negb (InvoiceDetails.VendorName inv =? "")%string &&
                  negb (InvoiceDetails.VendorGSTIN inv =? "")%string
               then (score + 15)%Q else score in
  (* Payment proof (15%) *)
  let score := if negb (InvoiceDetails.BankTransactionID inv =? "")%string ||
                  negb (InvoiceDetails.ChequeNumber inv =? "")%string
               then (score + 15)%Q else score in
  (* Supporting documents (15%) *)
  let score := if (0 <? length (InvoiceDetails.Documents inv))%nat
               then (score + 15)%Q else score in
  (* Attachments (10%) *)
  let score := if (0 <? length (Attachments et))%nat then (score + 10)%Q else score in
  (* Recent invoice (within 90 days) (5%) *)
  since ← time_Since (InvoiceDetails.InvoiceDate inv);
  let daysDiff := (time.Hours since / 24)%Q in
  let score := if Qle_bool daysDiff 90 then (score + 5)%Q else score in
  mret (if Qle_bool score maxScore then score else maxScore).

Definition NewExpenditureTransaction (ngoID : string) (amount : Q)
    (category description : string) (invoiceDetails : InvoiceDetails.t)
    (attachments : list Attachment.t) : Go ExpenditureTransaction.t :=
  randomBytes ← rand_Read 16;
  let transactionID := EncodeToString randomBytes in
  now ← time_Now;
  let transaction :=
    ExpenditureTransaction.mk transactionID ngoID amount category description now
      invoiceDetails attachments "pending_validation" None 0 in
  score ← calculateComplianceScore transaction;
  mret (set_ComplianceScore score transaction).

Definition Sprintf_t (b : bool) : string := if b then "true" else "false".

(** [auditScore] is a pointer: [None] is [nil]. *)
Definition ValidateByAuditor (et : ExpenditureTransaction.t) (auditorID : string)
    (isValid : bool) (remarks : string) (auditScore : option Q)
  : Go (ExpenditureTransaction.t * AuditorValidation.t) :=
  let finalAuditScore := default (ComplianceScore et) auditScore in
  now ← time_Now;
  let signatureData :=
    auditorID ++ TransactionID et ++ Sprintf_t isValid ++ Sprintf_d (time.UnixNano now) in
  let signature := sha256_hex signatureData in
  now' ← time_Now;
  let validation :=
    AuditorValidation.mk auditorID isValid remarks finalAuditScore now' signature in
  mret (set_validation validation (if isValid then "validated" else "rejected") et,
        validation).

Definition AddAttachment (et : ExpenditureTransaction.t)
    (filename hash attachmentType : string) : Go ExpenditureTransaction.t :=
  now ← time_Now;
  let attachment := Attachment.mk filename hash attachmentType now in
  let et := set_Attachments (append (Attachments et) attachment) et in
  score ← calculateComplianceScore et;
  mret (set_ComplianceScore score et).

Definition IsValidated (et : ExpenditureTransaction.t) : bool :=
  (Status et =? "validated")%string.
Definition IsRejected (et : ExpenditureTransaction.t) : bool :=
  (Status et =? "rejected")%string.
Definition IsPendingValidation (et : ExpenditureTransaction.t) : bool :=
  (Status et =? "pending_validation")%string.

End Expenditure.

(** The structs as [encoding/json] sees them: fields in declaration order
    under their tags. *)
Definition ZKProof_value (p : option crypto.ZKProof) : GoValue :=
  match p with
  | None => VNil
  | Some p =>
      VStruct [ ("commitment", VString (crypto.Commitment p));
                ("nullifier", VString (crypto.Nullifier p));
                ("proof", VString (crypto.Proof_ p));
                ("timestamp", VTime (crypto.Timestamp p)) ]
  end.

Definition EBill_value (e : option EBill.t) : GoValue :=
  match e with
  | None => VNil
  | Some e =>
      VStruct [ ("bill_id", VString (EBill.BillID e));
                ("transaction_id", VString (EBill.TransactionID e));
                ("amount", VFloat (EBill.Amount e));
                ("currency", VString (EBill.Currency e));
                ("timestamp", VTime (EBill.Timestamp e));
                ("ngo_id", VString (EBill.NGOID e));
                ("donor_hash", VString (EBill.DonorHash e));
                ("payment_method", VString (EBill.PaymentMethod e));
                ("tax_benefit", TaxBenefit_value (EBill.TaxBenefit e));
                ("receipt_number", VString (EBill.ReceiptNumber e));
                ("signature", VString (EBill.Signature e));
                ("qr_code", VString (EBill.QRCode e));
                ("download_url", VString (EBill.DownloadURL e));
                ("validity_period", VString (EBill.ValidityPeriod e)) ]
  end.

Definition InvoiceDetails_value (i : InvoiceDetails.t) : GoValue :=
  VStruct [ ("invoice_number", VString (InvoiceDetails.InvoiceNumber i));
            ("gstin", VString (InvoiceDetails.GSTIN i));
            ("vendor_name", VString (InvoiceDetails.VendorName i));
            ("vendor_gstin", VString (InvoiceDetails.VendorGSTIN i));
            ("invoice_date", VTime (InvoiceDetails.InvoiceDate i));
            ("documents", VStrings (InvoiceDetails.Documents i));
            ("bank_transaction_id", VString (InvoiceDetails.BankTransactionID i));
            ("cheque_number", VString (InvoiceDetails.ChequeNumber i)) ].

Definition AuditorValidation_value (v : option AuditorValidation.t) : GoValue :=
  match v with
  | None => VNil
  | Some v =>
      VStruct [ ("auditor_id", VString (AuditorValidation.AuditorID v));
                ("is_valid", VBool (AuditorValidation.IsValid v));
                ("remarks", VString (AuditorValidation.Remarks v));
                ("audit_score", VFloat (AuditorValidation.AuditScore v));
                ("timestamp", VTime (AuditorValidation.Timestamp v));
                ("signature", VString (AuditorValidation.Signature v)) ]
  end.

End transactions.
(** ** package entities *)

Module entities.
Import transactions.

Module AuditResult.
Record t := mk {
  AuditID : string;
  ExpenditureID : string;
  AuditorID : string;
  Timestamp : time.Time;
  ComplianceScore : Q;
  Findings : list string;
  Recommendation : string;
  AuditNotes : string;
  Signature : string
}.
End AuditResult.

Module Auditor.
Record t := mk {
  AuditorID : string;
  Name : string;
  Credentials : GoValue;
  Specializations : list string;
  Verified : bool;
  AuditHistory : list AuditResult.t;
  Rating : Q;
  CreatedAt : time.Time;
  PublicKey : string;
  VerificationAuthority : string;
  VerificationDate : option time.Time
}.

Definition set_verified (authority : string) (at_ : time.Time) (a : t) : t :=
  mk (AuditorID a) (Name a) (Credentials a) (Specializations a) true (AuditHistory a)
     (Rating a) (CreatedAt a) (PublicKey a) authority (Some at_).
Definition set_AuditHistory (v : list AuditResult.t) (a : t) : t :=
  mk (AuditorID a) (Name a) (Credentials a) (Specializations a) (Verified a) v
     (Rating a) (CreatedAt a) (PublicKey a) (VerificationAuthority a) (VerificationDate a).

Section Methods.
Context {rt : GoRuntime}.

Definition NewAuditor (auditorID name : string) (credentials : GoValue)
    (specializations : list string) : Go t :=
  let publicKeyData := auditorID ++ name in
  let publicKey := sha256_hex publicKeyData in
  now ← time_Now;
  mret (mk auditorID name credentials specializations false [] 5 now publicKey
                   "" None).

Definition VerifyCredentials (a : t) (verificationAuthority : string)
  : Go (t * bool) :=
  now ← time_Now;
  let a := set_verified verificationAuthority now a in
  mret (a, Verified a).

Definition generateFindings (a : t) (expenditure : ExpenditureTransaction.t)
  : Go (list string) :=
  let inv := ExpenditureTransaction.InvoiceDetails expenditure in
  let findings : list string := [] in
  let findings :=
    if negb (VerifyGSTIN (InvoiceDetails.GSTIN inv))
    then append findings "Invalid GSTIN format" else findings in
  let findings :=
    if (InvoiceDetails.BankTransactionID inv =? "")%string &&
       (InvoiceDetails.ChequeNumber inv =? "")%string
    then append findings "Missing payment proof" else findings in
  let findings :=
    if (length (InvoiceDetails.Documents inv) =? 0)%nat
    then append findings "No supporting documents provided" else findings in
  let findings :=
    if Qltb (ExpenditureTransaction.ComplianceScore expenditure) 80
    then append findings
           ("Low compliance score: " ++
            Sprintf_f 1 (ExpenditureTransaction.ComplianceScore expenditure) ++ "%")
    else findings in
  let findings :=
    if negb (InvoiceDetails.VendorGSTIN inv =? "")%string &&
       negb (VerifyGSTIN (InvoiceDetails.VendorGSTIN inv))
    then append findings "Invalid vendor GSTIN format" else findings in
  since ← time_Since (InvoiceDetails.InvoiceDate inv);
  let daysDiff := (time.Hours since / 24)%Q in
  let findings :=
    if Qgtb daysDiff 90
    then append findings
           ("Invoice is older than 90 days (" ++ Sprintf_f 0 daysDiff ++ " days)")
    else findings in
  let findings :=
    if (InvoiceDetails.InvoiceNumber inv =? "")%string
    then append findings "Missing invoice number" else findings in
  let findings :=
    if (InvoiceDetails.VendorName inv =? "")%string
    then append findings "Missing vendor name" else findings in
  mret findings.

Definition generateRecommendation (a : t)
    (expenditure : ExpenditureTransaction.t) : string :=
  let score := ExpenditureTransaction.ComplianceScore expenditure in
  if Qgeb score 90 then "Approve - Excellent compliance"
  else if Qgeb score 80 then "Approve - Good compliance with minor observations"
  else if Qgeb score 70 then "Approve with conditions - Address noted observations"
  else if Qgeb score 60 then "Conditional approval - Requires additional documentation"
  else if Qgeb score 50 then "Review required - Significant compliance gaps"
  else "Reject - Insufficient compliance and documentation".

(** [s[:n]] on a string: a panic when [s] is shorter than [n]. *)
Definition slice_to (s : string) (n : nat) : Go string :=
  if (String.length s <? n)%nat
  then panic ("slice bounds out of range [:" ++ pretty n ++ "] with length " ++
              pretty (String.length s))
  else mret (String.substring 0 n s).

Definition AuditExpenditure (a : t) (expenditure : ExpenditureTransaction.t)
    (auditNotes : string) : Go (t * AuditResult.t) :=
  now ← time_Now;
  idPrefix ← slice_to (AuditorID a) 8;
  let auditID := "AUD-" ++ Sprintf_d (time.Unix now) ++ "-" ++ idPrefix in
  findings ← generateFindings a expenditure;
  let recommendation := generateRecommendation a expenditure in
  let signatureData :=
    auditID ++ ExpenditureTransaction.TransactionID expenditure ++ AuditorID a in
  let signature := sha256_hex signatureData in
  now' ← time_Now;
  let auditResult :=
    AuditResult.mk auditID (ExpenditureTransaction.TransactionID expenditure) (AuditorID a)
                   now' (ExpenditureTransaction.ComplianceScore expenditure) findings
                   recommendation auditNotes signature in
  mret (set_AuditHistory (append (AuditHistory a) auditResult) a, auditResult).

End Methods.
End Auditor.

Module DonorKYCData.
Record t := mk {
  DocumentHash : string;
  VerificationDate : option time.Time;
  VerificationAuthority : string;
  DocumentsSubmitted : list string;
  VerificationLevel : string
}.
End DonorKYCData.

Module DonationRecord.
Record t := mk {
  TransactionID : string;
  NGOID : string;
  Amount : Q;
  Timestamp : time.Time;
  EBill : option EBill.t;
  ZKProof : option crypto.ZKProof;
  TaxBenefit : TaxBenefit.t
}.
End DonationRecord.

Module TaxBenefitSummary.
Record t := mk {
  Year : Z;
  TotalDonated : Q;
  TotalDeductible : Q;
  EstimatedTaxSaving : Q;
  Donations : list DonationRecord.t
}.
End TaxBenefitSummary.

Module DonationLimit.
Record t := mk {
  CanDonate : bool;
  CurrentYearTotal : Q;
  Limit : Q;
  RemainingLimit : Q
}.
End DonationLimit.

Module Donor.
Record t := mk {
  DonorID : string;
  KYCVerified : bool;
  KYCData : DonorKYCData.t;
  DonationHistory : list DonationRecord.t;
  TotalDonated : Q;
  PreferredNGOs : list string;
  TaxBenefits : list TaxBenefitSummary.t;
  CreatedAt : time.Time;
  AnnualDonationLimit : Q
}.

Section Methods.
Context {rt : GoRuntime}.

(** [kycData] is a [map[string]interface{}]. *)
Definition NewDonor (donorID : string) (kycData : list (string * GoValue)) : Go t :=
  let '(kycDocHash, documentsSubmitted) :=
    match map_index "documents" kycData with
    | Some (VStrings docsList) =>
        (sha256_hex (Sprintf_v (VStrings docsList)), docsList)
    | _ => (""%string, [])
    end in
  let annualLimit :=
    match map_index "annual_limit" kycData with
    | Some (VFloat limit) => limit
    | _ => 1000000%Q
    end in
  now ← time_Now;
  mret (mk donorID false (DonorKYCData.mk kycDocHash None "" documentsSubmitted "")
                 [] 0 [] [] now annualLimit).

Definition VerifyKYC (d : t) (authorityID verificationLevel : string)
  : Go (t * bool) :=
  let verificationLevel :=
    if (verificationLevel =? "")%string then "basic"%string else verificationLevel in
  now ← time_Now;
  let kyc := DonorKYCData.mk (DonorKYCData.DocumentHash (KYCData d)) (Some now) authorityID
               (DonorKYCData.DocumentsSubmitted (KYCData d)) verificationLevel in
  let limit := if (verificationLevel =? "premium")%string then 5000000%Q
               else AnnualDonationLimit d in
  mret (mk (DonorID d) true kyc (DonationHistory d) (TotalDonated d)
                 (PreferredNGOs d) (TaxBenefits d) (CreatedAt d) limit, true).

Definition add_to_summary (donation : DonationRecord.t) (s : TaxBenefitSummary.t)
  : TaxBenefitSummary.t :=
  TaxBenefitSummary.mk (TaxBenefitSummary.Year s)
    (TaxBenefitSummary.TotalDonated s + DonationRecord.Amount donation)%Q
    (TaxBenefitSummary.TotalDeductible s +
     TaxBenefit.DeductibleAmount (DonationRecord.TaxBenefit donation))%Q
    (TaxBenefitSummary.EstimatedTaxSaving s +
     TaxBenefit.TaxSaving (DonationRecord.TaxBenefit donation))%Q
    (append (TaxBenefitSummary.Donations s) donation).

(** The entry of [year] is updated in place; [None] when there is none. *)
Fixpoint update_year (year : Z) (donation : DonationRecord.t)
    (benefits : list TaxBenefitSummary.t) : option (list TaxBenefitSummary.t) :=
  match benefits with
  | [] => None
  | s :: rest =>
      if (TaxBenefitSummary.Year s =? year)%Z then Some (add_to_summary donation s :: rest)
      else match update_year year donation rest with
           | Some rest' => Some (s :: rest')
           | None => None
           end
  end.

Definition updateTaxBenefits (benefits : list TaxBenefitSummary.t)
    (donation : DonationRecord.t) : list TaxBenefitSummary.t :=
  let year := time_Year (DonationRecord.Timestamp donation) in
  match update_year year donation benefits with
  | Some benefits' => benefits'
  | None => append benefits (add_to_summary donation (TaxBenefitSummary.mk year 0 0 0 []))
  end.

(** [donation.EBill.TaxBenefit] dereferences the e-bill. *)
Definition AddDonation (d : t) (donation : DonationTransaction.t) : Go t :=
  match DonationTransaction.EBill donation with
  | None => panic "invalid memory address or nil pointer dereference"
  | Some bill =>
      let donationRecord :=
        DonationRecord.mk (DonationTransaction.TransactionID donation)
          (DonationTransaction.NGOID donation) (DonationTransaction.Amount donation)
          (DonationTransaction.Timestamp donation) (DonationTransaction.EBill donation)
          (DonationTransaction.ZKProof donation) (EBill.TaxBenefit bill) in
      mret (mk (DonorID d) (KYCVerified d) (KYCData d)
                     (append (DonationHistory d) donationRecord)
                     (TotalDonated d + DonationTransaction.Amount donation)%Q
                     (PreferredNGOs d) (updateTaxBenefits (TaxBenefits d) donationRecord)
                     (CreatedAt d) (AnnualDonationLimit d))
  end.

Definition yearlyTotal (currentYear : Z) (history : list DonationRecord.t) : Q :=
  fold_left (fun total donation =>
               if (time_Year (DonationRecord.Timestamp donation) =? currentYear)%Z
               then (total + DonationRecord.Amount donation)%Q else total)
            history 0%Q.

Definition CheckDonationLimit (d : t) (amount : Q) : Go DonationLimit.t :=
  now ← time_Now;
  let currentYear := time_Year now in
  let yearlyTotal := yearlyTotal currentYear (DonationHistory d) in
  let canDonate := Qle_bool (yearlyTotal + amount) (AnnualDonationLimit d) in
  let remainingLimit := (AnnualDonationLimit d - yearlyTotal)%Q in
  mret (DonationLimit.mk canDonate yearlyTotal (AnnualDonationLimit d) remainingLimit).

End Methods.
End Donor.

Module KYCData.
Record t := mk {
  Verified : bool;
  DocumentsHash : string;
  VerificationDate : option time.Time;
  VerificationAuthority : string
}.
End KYCData.

Module Certificate.
Record t := mk {
  Type_ : string;
  Number : string;
  ValidUntil : string
}.
End Certificate.

Module ProcessResult.
Record t := mk {
  Success : bool;
  BlockHash : string;
  TransactionID : string;
  BlockIndex : Z;
  EBill : GoValue
}.
Definition set_EBill (v : GoValue) (r : t) : t :=
  mk (Success r) (BlockHash r) (TransactionID r) (BlockIndex r) v.
End ProcessResult.

(** [ProcessResult.EBill] is an [interface{}]; the chains and the wallet of an
    NGO are never nil. *)
Module NGO.
Record t := mk {
  NGOID : string;
  Name : string;
  RegistrationNumber : string;
  Category : string;
  Rating : Q;
  KYCData : KYCData.t;
  DonationBlockchain : blockchain.Blockchain;
  ExpenditureBlockchain : blockchain.Blockchain;
  MultiSigWallet : crypto.MultiSigWallet;
  TotalDonationsReceived : Q;
  TotalExpenditureReported : Q;
  TransparencyScore : Z;
  CreatedAt : time.Time;
  LastAuditDate : option time.Time;
  Certificates : list Certificate.t;
  PublicKey : string
}.

Definition set_kyc (k : KYCData.t) (certs : list Certificate.t) (n : t) : t :=
  mk (NGOID n) (Name n) (RegistrationNumber n) (Category n) (Rating n) k
     (DonationBlockchain n) (ExpenditureBlockchain n) (MultiSigWallet n)
     (TotalDonationsReceived n) (TotalExpenditureReported n) (TransparencyScore n)
     (CreatedAt n) (LastAuditDate n) certs (PublicKey n).
Definition set_donations (bc : blockchain.Blockchain) (total : Q) (n : t) : t :=
  mk (NGOID n) (Name n) (RegistrationNumber n) (Category n) (Rating n) (KYCData n)
     bc (ExpenditureBlockchain n) (MultiSigWallet n)
     total (TotalExpenditureReported n) (TransparencyScore n)
     (CreatedAt n) (LastAuditDate n) (Certificates n) (PublicKey n).
Definition set_expenditures (bc : blockchain.Blockchain) (total : Q) (n : t) : t :=
  mk (NGOID n) (Name n) (RegistrationNumber n) (Category n) (Rating n) (KYCData n)
     (DonationBlockchain n) bc (MultiSigWallet n)
     (TotalDonationsReceived n) total (TransparencyScore n)
     (CreatedAt n) (LastAuditDate n) (Certificates n) (PublicKey n).

Section Methods.
Context {rt : GoRuntime}.

Definition NewNGO (ngoID name registrationNumber category : string)
    (kycData : list (string * GoValue)) (signers : list string) : Go t :=
  let publicKeyData := ngoID ++ registrationNumber in
  let publicKey := sha256_hex publicKeyData in
  let kycDocHash :=
    match map_index "documents" kycData with
    | Some docs => sha256_hex (Sprintf_v docs)
    | None => ""%string
    end in
  donations ← blockchain.NewBlockchain ngoID "donation" 2;
  expenditures ← blockchain.NewBlockchain ngoID "expenditure" 2;
  let wallet := crypto.NewMultiSigWallet 2 in
  now ← time_Now;
  let wallet := fold_left crypto.AddSigner signers wallet in
  mret (mk ngoID name registrationNumber category 5
               (KYCData.mk false kycDocHash None "")
               donations expenditures wallet 0 0 100 now None [] publicKey).

Definition VerifyKYC (ngo : t) (authorityID : string)
    (certificates : list Certificate.t) : Go (t * bool) :=
  now ← time_Now;
  let kyc := KYCData.mk true (KYCData.DocumentsHash (KYCData ngo)) (Some now) authorityID in
  mret (set_kyc kyc certificates ngo, true).

Definition generateDonorHash (donorID : string) : string := sha256_hex donorID.

Definition extractAttachmentHashes (attachments : list Attachment.t) : GoValue :=
  VSlice (map (fun att =>
                 VMap [ ("filename", VString (Attachment.Filename att));
                        ("hash", VString (Attachment.Hash att));
                        ("type", VString (Attachment.Type_ att)) ])
              attachments).

(** [GetLatestBlock().Hash]: a nil dereference on an empty chain. *)
Definition latest_hash (bc : blockchain.Blockchain) : Go string :=
  match blockchain.GetLatestBlock bc with
  | Some b => mret (blockchain.Hash b)
  | None => panic "invalid memory address or nil pointer dereference"
  end.

Definition donation_blockData (donation : DonationTransaction.t) : GoValue :=
  VMap
    [ ("type", VString "donation");
      ("transaction_id", VString (DonationTransaction.TransactionID donation));
      ("donor_hash", VString (generateDonorHash (DonationTransaction.DonorID donation)));
      ("amount", VFloat (DonationTransaction.Amount donation));
      ("currency", VString "INR");
      ("zk_proof", ZKProof_value (DonationTransaction.ZKProof donation));
      ("e_bill", EBill_value (DonationTransaction.EBill donation));
      ("timestamp", VTime (DonationTransaction.Timestamp donation));
      ("payment_method", VString (DonationTransaction.PaymentMethod donation)) ].

(** [ProcessDonation] writes to the NGO and to the donation it is given:
    both are returned beside the result. *)
Definition ProcessDonation (fuel : nat) (ngo : t) (donation : DonationTransaction.t)
  : Go (t * DonationTransaction.t * Result ProcessResult.t) :=
  if negb (ValidateEBill donation) then mret (ngo, donation, Err "invalid e-bill")
  else
    verified ← crypto.VerifyProof (DonationTransaction.ZKProof donation)
                 (DonationTransaction.Amount donation)
                 (DonationTransaction.Timestamp donation);
    if negb (verified : bool)
    then mret (ngo, donation, Err "invalid zero-knowledge proof")
    else
      let blockData := donation_blockData donation in
      now ← time_Now;
      previousHash ← latest_hash (DonationBlockchain ngo);
      block ← blockchain.NewBlock (blockchain.GetChainLength (DonationBlockchain ngo))
                now blockData previousHash "donation";
      let block := blockchain.Validate block in
      block ← blockchain.AddValidator block "ebill_system"
                (from_option EBill.Signature "" (DonationTransaction.EBill donation)) "ebill";
      block ← blockchain.AddValidator block "zk_system"
                (from_option crypto.Proof_ "" (DonationTransaction.ZKProof donation))
                "zkproof";
      '(added, chain, block) ← blockchain.AddBlock fuel (DonationBlockchain ngo) block;
      if (added : bool) then
        let ngo := set_donations chain
                     (TotalDonationsReceived ngo + DonationTransaction.Amount donation)%Q
                     ngo in
        donation ← MarkComplete donation;
        mret (ngo, donation,
              Ok (ProcessResult.mk true (blockchain.Hash block)
                    (DonationTransaction.TransactionID donation) (blockchain.Index block)
                    (EBill_value (DonationTransaction.EBill donation))))
      else
        donation ← MarkFailed donation "Block validation failed";
        mret (ngo, donation, Err "failed to add block to blockchain").

Definition expenditure_blockData (expenditure : ExpenditureTransaction.t) : GoValue :=
  VMap
    [ ("type", VString "expenditure");
      ("transaction_id", VString (ExpenditureTransaction.TransactionID expenditure));
      ("amount", VFloat (ExpenditureTransaction.Amount expenditure));
      ("currency", VString "INR");
      ("category", VString (ExpenditureTransaction.Category expenditure));
      ("description", VString (ExpenditureTransaction.Description expenditure));
      ("invoice_details",
       InvoiceDetails_value (ExpenditureTransaction.InvoiceDetails expenditure));
      ("auditor_validation",
       AuditorValidation_value (ExpenditureTransaction.AuditorValidation expenditure));
      ("compliance_score", VFloat (ExpenditureTransaction.ComplianceScore expenditure));
      ("timestamp", VTime (ExpenditureTransaction.Timestamp expenditure));
      ("attachments",
       extractAttachmentHashes (ExpenditureTransaction.Attachments expenditure)) ].

Definition ProcessExpenditure (fuel : nat) (ngo : t)
    (expenditure : ExpenditureTransaction.t) : Go (t * Result ProcessResult.t) :=
  match ExpenditureTransaction.AuditorValidation expenditure with
  | None => mret (ngo, Err "expenditure not validated by auditor")
  | Some validation =>
      if negb (AuditorValidation.IsValid validation)
      then mret (ngo, Err "expenditure not validated by auditor")
      else if negb (VerifyGSTIN (InvoiceDetails.GSTIN
                                   (ExpenditureTransaction.InvoiceDetails expenditure)))
      then mret (ngo, Err "invalid GSTIN format")
      else if Qltb (ExpenditureTransaction.ComplianceScore expenditure) 60
      then mret (ngo, Err ("low compliance score: " ++
                           Sprintf_f 1 (ExpenditureTransaction.ComplianceScore expenditure) ++
                           "%. Minimum required: 60%"))
      else
        let blockData := expenditure_blockData expenditure in
        now ← time_Now;
        previousHash ← latest_hash (ExpenditureBlockchain ngo);
        block ← blockchain.NewBlock
                  (blockchain.GetChainLength (ExpenditureBlockchain ngo))
                  now blockData previousHash "expenditure";
        let block := blockchain.Validate block in
        block ← blockchain.AddValidator block (AuditorValidation.AuditorID validation)
                  (AuditorValidation.Signature validation) "auditor";
        '(added, chain, block) ← blockchain.AddBlock fuel (ExpenditureBlockchain ngo) block;
        if (added : bool) then
          let ngo := set_expenditures chain
                       (TotalExpenditureReported ngo +
                        ExpenditureTransaction.Amount expenditure)%Q ngo in
          mret (ngo,
                Ok (ProcessResult.mk true (blockchain.Hash block)
                      (ExpenditureTransaction.TransactionID expenditure)
                      (blockchain.Index block) VNil))
        else mret (ngo, Err "failed to add expenditure block to blockchain")
  end.

End Methods.
End NGO.

End entities.
(** ** package polygon: the anchoring simulator *)

Module polygon.

Module AnchorResult.
Record t := mk {
  PolygonTxHash : string;
  DataHash : string;
  Timestamp : time.Time;
  BlockNumber : Z;
  GasUsed : Z;
  Confirmations : Z
}.
End AnchorResult.

Definition AnchorResult_value (a : AnchorResult.t) : GoValue :=
  VStruct [ ("polygon_tx_hash", VString (AnchorResult.PolygonTxHash a));
            ("data_hash", VString (AnchorResult.DataHash a));
            ("timestamp", VTime (AnchorResult.Timestamp a));
            ("block_number", VInt (AnchorResult.BlockNumber a));
            ("gas_used", VInt (AnchorResult.GasUsed a));
            ("confirmations", VInt (AnchorResult.Confirmations a)) ].

(** [GasPrice] is a [*big.Int]. *)
Module PolygonIntegration.
Record t := mk {
  ProviderURL : string;
  PrivateKey : string;
  ContractAddress : string;
  GasLimit : Z;
  GasPrice : option Z;
  Anchors : gmap string AnchorResult.t;
  WalletAddress : string
}.
Definition set_Anchors (v : gmap string AnchorResult.t) (pi : t) : t :=
  mk (ProviderURL pi) (PrivateKey pi) (ContractAddress pi) (GasLimit pi) (GasPrice pi) v
     (WalletAddress pi).
End PolygonIntegration.

Section WithRuntime.
Context {rt : GoRuntime}.
Import PolygonIntegration.

Definition generateWalletAddress (privateKey : string) : string :=
  "0x" ++ EncodeToString (String.substring 0 20 (sha256.Sum256 privateKey)).

Definition NewPolygonIntegration (providerURL privateKey : string) (gasLimit : Z)
    (gasPrice : option Z) : PolygonIntegration.t :=
  let gasLimit := if (gasLimit =? 0)%Z then 300000%Z else gasLimit in
  PolygonIntegration.mk providerURL privateKey "" gasLimit gasPrice ∅
                        (generateWalletAddress privateKey).

Definition generateTransactionHash : Go string :=
  randomBytes ← rand_Read 32; mret ("0x" ++ EncodeToString randomBytes).

(** [rand.Int63n(n)] and [rand.Intn(n)]: a draw from the random source,
    reduced below [n]. *)
Definition rand_Int63n (n : Z) : Go Z :=
  bytes ← rand_Read 8;
  let v := fold_left (fun acc c => (acc * 256 + Z.of_N (N_of_ascii c))%Z)
                     (list_ascii_of_string bytes) 0%Z in
  mret ((v mod 2 ^ 63) mod n)%Z.

Definition generateBlockNumber : Go Z :=
  randomOffset ← rand_Int63n 1000000; mret (50000000 + randomOffset)%Z.

(** [anchorData[k] = v] on a map literal. *)
Fixpoint map_set (k : string) (v : GoValue) (m : list (string * GoValue))
  : list (string * GoValue) :=
  match m with
  | [] => [(k, v)]
  | (k', v') :: rest =>
      if String.eqb k' k then (k, v) :: rest else (k', v') :: map_set k v rest
  end.

(** [AnchorBlockHash] never returns an error; the network delay it sleeps
    for is not modelled. *)
Definition AnchorBlockHash (pi : PolygonIntegration.t) (blockHash ngoID chainType : string)
    (additionalData : list (string * GoValue))
  : Go (PolygonIntegration.t * Result AnchorResult.t) :=
  now ← time_Now;
  let anchorData :=
    [ ("block_hash", VString blockHash); ("ngo_id", VString ngoID);
      ("chain_type", VString chainType); ("timestamp", VTime now) ] in
  let anchorData :=
    fold_left (fun m kv => map_set (fst kv) (snd kv) m) additionalData anchorData in
  let dataHash := sha256_hex (Sprintf_v (VMap anchorData)) in
  simulatedTxHash ← generateTransactionHash;
  blockNumber ← generateBlockNumber;
  extraGas ← rand_Int63n 50000;
  let gasUsed := (21000 + extraGas)%Z in
  now' ← time_Now;
  let anchorResult := AnchorResult.mk simulatedTxHash dataHash now' blockNumber gasUsed 12 in
  mret (set_Anchors (<[blockHash := anchorResult]> (Anchors pi)) pi, Ok anchorResult).

End WithRuntime.
End polygon.

(** ** package platform: the orchestrator *)

Module platform.
Import transactions entities.

Module SystemStats.
Record t := mk {
  TotalTransactions : Z;
  TotalDonations : Q;
  TotalExpenditures : Q;
  PlatformFee : Q;
  CreatedAt : time.Time
}.
End SystemStats.

Module PlatformStats.
Record t := mk {
  TotalNGOs : Z;
  TotalDonors : Z;
  TotalAuditors : Z;
  TotalTransactions : Z;
  TotalDonations : Q;
  TotalExpenditures : Q;
  PlatformFeeCollected : Q;
  VerifiedNGOs : Z;
  VerifiedDonors : Z;
  VerifiedAuditors : Z;
  KYCAuthorities : Z;
  DaysActive : Z;
  AverageNGORating : Q;
  Categories : list string
}.
End PlatformStats.

Definition AuditResult_value (r : AuditResult.t) : GoValue :=
  VStruct [ ("audit_id", VString (AuditResult.AuditID r));
            ("expenditure_id", VString (AuditResult.ExpenditureID r));
            ("auditor_id", VString (AuditResult.AuditorID r));
            ("timestamp", VTime (AuditResult.Timestamp r));
            ("compliance_score", VFloat (AuditResult.ComplianceScore r));
            ("findings", VStrings (AuditResult.Findings r));
            ("recommendation", VString (AuditResult.Recommendation r));
            ("audit_notes", VString (AuditResult.AuditNotes r));
            ("signature", VString (AuditResult.Signature r)) ].

(** The registries are Go maps from identifiers to pointers;
    [PolygonIntegration] is a pointer, [None] until [InitializePolygon]. *)
Module NGOTransparencyPlatform.
Record t := mk {
  NGOs : gmap string NGO.t;
  Donors : gmap string Donor.t;
  Auditors : gmap string Auditor.t;
  PolygonIntegration : option polygon.PolygonIntegration.t;
  SystemStats : SystemStats.t;
  KYCAuthorities : gmap string bool
}.

Definition set_NGOs (v : gmap string NGO.t) (p : t) : t :=
  mk v (Donors p) (Auditors p) (PolygonIntegration p) (SystemStats p) (KYCAuthorities p).
Definition set_Donors (v : gmap string Donor.t) (p : t) : t :=
  mk (NGOs p) v (Auditors p) (PolygonIntegration p) (SystemStats p) (KYCAuthorities p).
Definition set_Auditors (v : gmap string Auditor.t) (p : t) : t :=
  mk (NGOs p) (Donors p) v (PolygonIntegration p) (SystemStats p) (KYCAuthorities p).
Definition set_PolygonIntegration (v : option polygon.PolygonIntegration.t) (p : t) : t :=
  mk (NGOs p) (Donors p) (Auditors p) v (SystemStats p) (KYCAuthorities p).
Definition set_SystemStats (v : SystemStats.t) (p : t) : t :=
  mk (NGOs p) (Donors p) (Auditors p) (PolygonIntegration p) v (KYCAuthorities p).
Definition set_KYCAuthorities (v : gmap string bool) (p : t) : t :=
  mk (NGOs p) (Donors p) (Auditors p) (PolygonIntegration p) (SystemStats p) v.

Section Methods.
Context {rt : GoRuntime}.

Definition NewNGOTransparencyPlatform : Go t :=
  now ← time_Now;
  mret (mk ∅ ∅ ∅ None (SystemStats.mk 0 0 0 (1 # 100) now) ∅).

Definition InitializePolygon (p : t) (providerURL privateKey : string) (gasLimit : Z)
    (gasPrice : option Z) : t :=
  set_PolygonIntegration
    (Some (polygon.NewPolygonIntegration providerURL privateKey gasLimit gasPrice)) p.

Definition RegisterNGO (p : t) (ngoID name registrationNumber category : string)
    (kycData : list (string * GoValue)) (signers : list string)
  : Go (t * Result NGO.t) :=
  match NGOs p !! ngoID with
  | Some _ => mret (p, Err "NGO already registered")
  | None =>
      ngo ← NGO.NewNGO ngoID name registrationNumber category kycData signers;
      mret (set_NGOs (<[ngoID := ngo]> (NGOs p)) p, Ok ngo)
  end.

(** A method that returns [error]: [None] is [nil]. *)
Definition VerifyNGOKYC (p : t) (ngoID authorityID : string)
    (certificates : list Certificate.t) : Go (t * option string) :=
  match NGOs p !! ngoID with
  | None => mret (p, Some "NGO not found")
  | Some ngo =>
      let p := set_KYCAuthorities (<[authorityID := true]> (KYCAuthorities p)) p in
      '(ngo, _) ← NGO.VerifyKYC ngo authorityID certificates;
      mret (set_NGOs (<[ngoID := ngo]> (NGOs p)) p, None)
  end.

Definition RegisterDonor (p : t) (donorID : string) (kycData : list (string * GoValue))
  : Go (t * Result Donor.t) :=
  match Donors p !! donorID with
  | Some _ => mret (p, Err "donor already registered")
  | None =>
      donor ← Donor.NewDonor donorID kycData;
      mret (set_Donors (<[donorID := donor]> (Donors p)) p, Ok donor)
  end.

Definition VerifyDonorKYC (p : t) (donorID authorityID verificationLevel : string)
  : Go (t * option string) :=
  match Donors p !! donorID with
  | None => mret (p, Some "donor not found")
  | Some donor =>
      let p := set_KYCAuthorities (<[authorityID := true]> (KYCAuthorities p)) p in
      '(donor, _) ← Donor.VerifyKYC donor authorityID verificationLevel;
      mret (set_Donors (<[donorID := donor]> (Donors p)) p, None)
  end.

Definition RegisterAuditor (p : t) (auditorID name : string) (credentials : GoValue)
    (specializations : list string) : Go (t * Result Auditor.t) :=
  match Auditors p !! auditorID with
  | Some _ => mret (p, Err "auditor already registered")
  | None =>
      auditor ← Auditor.NewAuditor auditorID name credentials specializations;
      mret (set_Auditors (<[auditorID := auditor]> (Auditors p)) p, Ok auditor)
  end.

Definition VerifyAuditorCredentials (p : t) (auditorID verificationAuthority : string)
  : Go (t * option string) :=
  match Auditors p !! auditorID with
  | None => mret (p, Some "auditor not found")
  | Some auditor =>
      '(auditor, _) ← Auditor.VerifyCredentials auditor verificationAuthority;
      mret (set_Auditors (<[auditorID := auditor]> (Auditors p)) p, None)
  end.


Definition rupee : string :=
  String (ascii_of_nat 226) (String (ascii_of_nat 130) (String (ascii_of_nat 185) "")).

(** Lines 211-225 of the orchestrator: the anchoring of a donation block.  It
    rewrites [result.EBill] when the anchor is made. *)
Definition anchor_donation (p : t) (result : ProcessResult.t) (ngoID : string)
    (netAmount platformFee : Q) (donation : DonationTransaction.t)
  : Go (t * ProcessResult.t) :=
  match PolygonIntegration p with
  | None => mret (p, result)
  | Some pi =>
      let additionalData :=
        [ ("amount", VFloat netAmount); ("platform_fee", VFloat platformFee) ] in
      '(pi, anchor) ← polygon.AnchorBlockHash pi (ProcessResult.BlockHash result) ngoID
                        "donation" additionalData;
      let p := set_PolygonIntegration (Some pi) p in
      match anchor with
      | Ok anchor =>
          mret (p, ProcessResult.set_EBill
                     (VMap [ ("polygon_anchor", polygon.AnchorResult_value anchor);
                             ("original_ebill",
                              EBill_value (DonationTransaction.EBill donation)) ])
                     result)
      | Err _ => mret (p, result)
      end
  end.

(** [ProcessDonation] returns [(map[string]interface{}, error)]. *)
Definition ProcessDonation (fuel : nat) (p : t) (donorID ngoID : string) (amount : Q)
    (paymentMethod : string) : Go (t * Result GoValue) :=
  match Donors p !! donorID, NGOs p !! ngoID with
  | None, _ => mret (p, Err "donor not found")
  | Some _, None => mret (p, Err "NGO not found")
  | Some donor, Some ngo =>
      if negb (Donor.KYCVerified donor) then mret (p, Err "donor KYC not verified")
      else if negb (KYCData.Verified (NGO.KYCData ngo))
      then mret (p, Err "NGO KYC not verified")
      else
        (* Check donation limit *)
        limitCheck ← Donor.CheckDonationLimit donor amount;
        if negb (DonationLimit.CanDonate limitCheck)
        then mret (p, Err ("donation exceeds annual limit. Remaining: " ++ rupee ++
                           Sprintf_f 2 (DonationLimit.RemainingLimit limitCheck)))
        else
          (* Calculate platform fee *)
          let platformFee := (amount * SystemStats.PlatformFee (SystemStats p))%Q in
          let netAmount := (amount - platformFee)%Q in
          donation ← NewDonationTransaction donorID ngoID netAmount paymentMethod
                       (DonorKYCData.DocumentHash (Donor.KYCData donor));
          '(ngo, donation, result) ← NGO.ProcessDonation fuel ngo donation;
          let p := set_NGOs (<[ngoID := ngo]> (NGOs p)) p in
          match result with
          | Err err => mret (p, Err err)
          | Ok result =>
              donor ← Donor.AddDonation donor donation;
              let p := set_Donors (<[donorID := donor]> (Donors p)) p in
              (* Update system stats *)
              let stats := SystemStats p in
              let p := set_SystemStats
                         (SystemStats.mk (wrap64 (SystemStats.TotalTransactions stats + 1))
                            (SystemStats.TotalDonations stats + netAmount)%Q
                            (SystemStats.TotalExpenditures stats)
                            (SystemStats.PlatformFee stats) (SystemStats.CreatedAt stats))
                         p in
              (* Anchor to Polygon if available *)
              '(p, result) ← anchor_donation p result ngoID netAmount platformFee donation;
              mret (p, Ok (VMap
                [ ("success", VBool (ProcessResult.Success result));
                  ("block_hash", VString (ProcessResult.BlockHash result));
                  ("transaction_id", VString (ProcessResult.TransactionID result));
                  ("block_index", VInt (ProcessResult.BlockIndex result));
                  ("e_bill", ProcessResult.EBill result);
                  ("platform_fee", VFloat platformFee);
                  ("net_amount", VFloat netAmount);
                  ("gross_amount", VFloat amount) ]))
          end
  end.

(** Lines 257-274 of [ProcessExpenditure]: the expenditure is built from
    the amount, the category and the description of [expenditureData], and
    from an invoice made up on the spot. *)
Definition build_expenditure (ngoID : string) (expenditureData : list (string * GoValue))
  : Go (Result (Q * string * ExpenditureTransaction.t)) :=
  match map_index "amount" expenditureData with
  | Some (VFloat amount) =>
      let category :=
        match map_index "category" expenditureData with
        | Some (VString s) => s | _ => ""%string end in
      let description :=
        match map_index "description" expenditureData with
        | Some (VString s) => s | _ => ""%string end in
      (* Create invoice details (simplified) *)
      now ← time_Now;
      now' ← time_Now;
      let invoiceDetails :=
        InvoiceDetails.mk ("INV-" ++ Sprintf_d (time.Unix now)) "27ABCDE1234F1Z5"
                          "Test Vendor" "" now' [] "" "" in
      expenditure ← NewExpenditureTransaction ngoID amount category description
                      invoiceDetails [];
      mret (Ok (amount, category, expenditure))
  | _ => mret (Err "invalid amount")
  end.

(** Line 280: the audit recommendation read as a decision. *)
Definition shouldApprove (recommendation : string) : bool :=
  Contains (ToLower recommendation) "approve".

(** Lines 296-309: the anchoring of an expenditure block. *)
Definition anchor_expenditure (p : t) (result : ProcessResult.t) (ngoID : string)
    (amount : Q) (category : string) : Go (t * ProcessResult.t) :=
  match PolygonIntegration p with
  | None => mret (p, result)
  | Some pi =>
      let additionalData := [ ("amount", VFloat amount); ("category", VString category) ] in
      '(pi, anchor) ← polygon.AnchorBlockHash pi (ProcessResult.BlockHash result) ngoID
                        "expenditure" additionalData;
      let p := set_PolygonIntegration (Some pi) p in
      match anchor with
      | Ok anchor =>
          mret (p, ProcessResult.set_EBill
                     (VMap [ ("polygon_anchor", polygon.AnchorResult_value anchor) ]) result)
      | Err _ => mret (p, result)
      end
  end.

(** Lines 276-317: the audit, the decision, the admission by the NGO, the
    counters and the answer. *)
Definition audit_and_admit (fuel : nat) (p : t) (ngoID : string) (ngo : NGO.t)
    (auditorID : string) (auditor : Auditor.t) (amount : Q) (category : string)
    (expenditure : ExpenditureTransaction.t) : Go (t * Result GoValue) :=
  (* Auditor performs audit *)
  '(auditor, auditResult) ← Auditor.AuditExpenditure auditor expenditure "";
  let p := set_Auditors (<[auditorID := auditor]> (Auditors p)) p in
  (* Auto-approve based on audit recommendation *)
  let approve := shouldApprove (AuditResult.Recommendation auditResult) in
  '(expenditure, _) ← ValidateByAuditor expenditure auditorID approve
                        (AuditResult.Recommendation auditResult)
                        (Some (AuditResult.ComplianceScore auditResult));
  if negb approve
  then mret (p, Err ("expenditure rejected by auditor: " ++
                     AuditResult.Recommendation auditResult))
  else
    '(ngo, result) ← NGO.ProcessExpenditure fuel ngo expenditure;
    let p := set_NGOs (<[ngoID := ngo]> (NGOs p)) p in
    match result with
    | Err err => mret (p, Err err)
    | Ok result =>
        (* Update system stats *)
        let stats := SystemStats p in
        let p := set_SystemStats
                   (SystemStats.mk (wrap64 (SystemStats.TotalTransactions stats + 1))
                      (SystemStats.TotalDonations stats)
                      (SystemStats.TotalExpenditures stats + amount)%Q
                      (SystemStats.PlatformFee stats) (SystemStats.CreatedAt stats))
                   p in
        (* Anchor to Polygon if available *)
        '(p, result) ← anchor_expenditure p result ngoID amount category;
        mret (p, Ok (VMap
          [ ("success", VBool (ProcessResult.Success result));
            ("block_hash", VString (ProcessResult.BlockHash result));
            ("transaction_id", VString (ProcessResult.TransactionID result));
            ("block_index", VInt (ProcessResult.BlockIndex result));
            ("audit_result", AuditResult_value auditResult) ]))
    end.

Definition ProcessExpenditure (fuel : nat) (p : t) (ngoID : string)
    (expenditureData : list (string * GoValue)) (auditorID : string)
  : Go (t * Result GoValue) :=
  match NGOs p !! ngoID, Auditors p !! auditorID with
  | None, _ => mret (p, Err "NGO not found")
  | Some _, None => mret (p, Err "auditor not found")
  | Some ngo, Some auditor =>
      if negb (Auditor.Verified auditor) then mret (p, Err "auditor not verified")
      else
        built ← build_expenditure ngoID expenditureData;
        match built with
        | Err err => mret (p, Err err)
        | Ok (amount, category, expenditure) =>
            audit_and_admit fuel p ngoID ngo auditorID auditor amount category expenditure
        end
  end.

(** [int(x)] on a [float64]: truncation toward zero. *)
Definition int_of_float (x : Q) : Z := Z.quot (Qnum x) (Z.pos (Qden x)).

Definition count_if {A : Type} (f : A -> bool) (m : gmap string A) : Z :=
  Z.of_nat (length (filter (fun kv => f (snd kv) = true) (map_to_list m))).

(** The registries are walked in the order of [map_to_list]; Go walks a map
    in an unspecified order, on which only the order of [Categories]
    depends. *)
Definition GetPlatformStats (p : t) : Go PlatformStats.t :=
  now ← time_Now;
  let stats := SystemStats p in
  let platformAge := time.Sub now (SystemStats.CreatedAt stats) in
  let daysActive := int_of_float (time.Hours platformAge / 24)%Q in
  let ngos := map snd (map_to_list (NGOs p)) in
  let verifiedNGOs := count_if (fun ngo => KYCData.Verified (NGO.KYCData ngo)) (NGOs p) in
  let totalRating := fold_left (fun total ngo => (total + NGO.Rating ngo)%Q) ngos 0%Q in
  let categories :=
    fold_left (fun acc ngo => if existsb (String.eqb (NGO.Category ngo)) acc then acc
                              else append acc (NGO.Category ngo)) ngos [] in
  let verifiedDonors := count_if Donor.KYCVerified (Donors p) in
  let verifiedAuditors := count_if Auditor.Verified (Auditors p) in
  let averageRating :=
    if (0 <? size (NGOs p))%nat then (totalRating / inject_Z (Z.of_nat (size (NGOs p))))%Q
    else 0%Q in
  mret (PlatformStats.mk
          (Z.of_nat (size (NGOs p))) (Z.of_nat (size (Donors p)))
          (Z.of_nat (size (Auditors p)))
          (SystemStats.TotalTransactions stats) (SystemStats.TotalDonations stats)
          (SystemStats.TotalExpenditures stats)
          (SystemStats.TotalDonations stats * SystemStats.PlatformFee stats)%Q
          verifiedNGOs verifiedDonors verifiedAuditors
          (Z.of_nat (size (KYCAuthorities p))) daysActive averageRating categories).

End Methods.
End NGOTransparencyPlatform.

End platform.
(** * Properties *)

(** ** Definitions the statements use *)

Module spec.
Import transactions.
Local Open Scope Z_scope.

Definition Day : time.Duration := 24 * time.Hour.

(** The weight of a clause of the compliance score. *)
Definition weight (holds : bool) (w : Q) : Q := if holds then w else 0%Q.

(** The seven predicates of the compliance score, in the words of the
    specification; [now] is the instant the score is computed at. *)
Record clauses := mkClauses {
  invoice_number_present : bool;
  gstin_well_formed : bool;
  vendor_details_complete : bool;
  payment_proof : bool;
  supporting_documents : bool;
  has_attachments : bool;
  invoice_recent : bool
}.

Definition clauses_of (et : ExpenditureTransaction.t) (now : time.Time) : clauses :=
  let inv := ExpenditureTransaction.InvoiceDetails et in
  {| invoice_number_present := negb (InvoiceDetails.InvoiceNumber inv =? "")%string;
     gstin_well_formed := match_classes gstinRegex (InvoiceDetails.GSTIN inv);
     vendor_details_complete :=
       negb (InvoiceDetails.VendorName inv =? "")%string &&
       negb (InvoiceDetails.VendorGSTIN inv =? "")%string;
     payment_proof :=
       negb (InvoiceDetails.BankTransactionID inv =? "")%string ||
       negb (InvoiceDetails.ChequeNumber inv =? "")%string;
     supporting_documents := negb (length (InvoiceDetails.Documents inv) =? 0)%nat;
     has_attachments := negb (length (ExpenditureTransaction.Attachments et) =? 0)%nat;
     invoice_recent := now - InvoiceDetails.InvoiceDate inv <=? 90 * Day |}.

Definition weighted_sum (c : clauses) : Q :=
  (weight (invoice_number_present c) 20 + weight (gstin_well_formed c) 20 +
   weight (vendor_details_complete c) 15 + weight (payment_proof c) 15 +
   weight (supporting_documents c) 15 + weight (has_attachments c) 10 +
   weight (invoice_recent c) 5)%Q.

Definition all_hold (c : clauses) : Prop :=
  invoice_number_present c = true /\ gstin_well_formed c = true /\
  vendor_details_complete c = true /\ payment_proof c = true /\
  supporting_documents c = true /\ has_attachments c = true /\ invoice_recent c = true.

Definition none_holds (c : clauses) : Prop :=
  invoice_number_present c = false /\ gstin_well_formed c = false /\
  vendor_details_complete c = false /\ payment_proof c = false /\
  supporting_documents c = false /\ has_attachments c = false /\ invoice_recent c = false.

(** A lowercase hexadecimal digit, and a string of exactly 64 of them. *)
Definition lower_hex_digit (c : ascii) : bool :=
  existsb (Ascii.eqb c) (list_ascii_of_string "0123456789abcdef").

Definition hex64 (s : string) : Prop :=
  String.length s = 64%nat /\
  Forall (fun c => lower_hex_digit c = true) (list_ascii_of_string s).

(** A mutation of one signed field of an e-bill (every field but the
    signature, the QR code and the download URL). *)
Inductive ebill_mutation : Type :=
| SetBillID (v : string)
| SetTransactionID (v : string)
| SetAmount (v : Q)
| SetCurrency (v : string)
| SetTimestamp (v : time.Time)
| SetNGOID (v : string)
| SetDonorHash (v : string)
| SetPaymentMethod (v : string)
| SetTaxBenefit (v : TaxBenefit.t)
| SetReceiptNumber (v : string)
| SetValidityPeriod (v : string).

Definition mutate_ebill (m : ebill_mutation) (e : EBill.t) : EBill.t :=
  let mk' a b c d t n h pm tb rn vp :=
    EBill.mk a b c d t n h pm tb rn (EBill.Signature e) (EBill.QRCode e)
             (EBill.DownloadURL e) vp in
  let a := EBill.BillID e in let b := EBill.TransactionID e in
  let c := EBill.Amount e in let d := EBill.Currency e in
  let t := EBill.Timestamp e in let n := EBill.NGOID e in
  let h := EBill.DonorHash e in let pm := EBill.PaymentMethod e in
  let tb := EBill.TaxBenefit e in let rn := EBill.ReceiptNumber e in
  let vp := EBill.ValidityPeriod e in
  match m with
  | SetBillID v => mk' v b c d t n h pm tb rn vp
  | SetTransactionID v => mk' a v c d t n h pm tb rn vp
  | SetAmount v => mk' a b v d t n h pm tb rn vp
  | SetCurrency v => mk' a b c v t n h pm tb rn vp
  | SetTimestamp v => mk' a b c d v n h pm tb rn vp
  | SetNGOID v => mk' a b c d t v h pm tb rn vp
  | SetDonorHash v => mk' a b c d t n v pm tb rn vp
  | SetPaymentMethod v => mk' a b c d t n h v tb rn vp
  | SetTaxBenefit v => mk' a b c d t n h pm v rn vp
  | SetReceiptNumber v => mk' a b c d t n h pm tb v vp
  | SetValidityPeriod v => mk' a b c d t n h pm tb rn v
  end.

(** The world after [n] readings of the clock and [d] random bytes. *)
Definition after (n d : nat) (w : World) : World :=
  mkWorld (clock w) (n + ticks w) (entropy w) (d + drawn w).

(** The world after [n] readings of the clock. *)
Definition later (n : nat) (w : World) : World := after n 0 w.

(** The [i]-th reading of the clock from [w] on. *)
Definition reading (w : World) (i : nat) : time.Time := clock w (i + ticks w).

(** The invoice the orchestrator makes up for an expenditure it processes
    from the world [w] on. *)
Definition synthesized_invoice (w : World) : InvoiceDetails.t :=
  InvoiceDetails.mk ("INV-" ++ Sprintf_d (time.Unix (reading w 0))) "27ABCDE1234F1Z5"
                    "Test Vendor" "" (reading w 1) [] "" "".

(** The two readings of the clock the recency clause of that invoice
    compares are at most 90 days apart. *)
Definition prompt (w : World) : Prop := reading w 3 - reading w 1 <= 90 * Day.

(** *** Chains of blocks *)

Section Chains.
Context {rt : GoRuntime}.
Import blockchain.

(** A chain as [NewBlockchain] and successful calls of [AddBlock] build
    it. *)
Inductive admitted : Blockchain -> Prop :=
| admitted_new (ngoID chainType : string) (difficulty : Z) (w w' : World)
    (bc : Blockchain) :
    NewBlockchain ngoID chainType difficulty w = Returned bc w' -> admitted bc
| admitted_add (fuel : nat) (bc bc' : Blockchain) (b b' : Block) (w w' : World) :
    admitted bc -> AddBlock fuel bc b w = Returned (true, bc', b') w' -> admitted bc'.

(** A mutation of one field of a block, the list of validators apart. *)
Inductive block_mutation : Type :=
| SetIndex (v : Z)
| SetBlockTimestamp (v : time.Time)
| SetData (v : GoValue)
| SetPreviousHash (v : string)
| SetBlockType (v : string)
| SetHash (v : string)
| SetNonce (v : Z)
| SetValidated (v : bool)
| SetMerkleRoot (v : string).

Definition mutate_block (m : block_mutation) (b : Block) : Block :=
  match m with
  | SetIndex v => set_Index v b
  | SetBlockTimestamp v => set_Timestamp v b
  | SetData v => set_Data v b
  | SetPreviousHash v => set_PreviousHash v b
  | SetBlockType v => set_BlockType v b
  | SetHash v => set_Hash v b
  | SetNonce v => set_Nonce v b
  | SetValidated v => set_Validated v b
  | SetMerkleRoot v => set_MerkleRoot v b
  end.

(** The mutations [IsValid] can see: a new value of a field that is hashed
    as it stands, a timestamp of other nanoseconds, data of another
    encoding, another hash, and the validation withdrawn. *)
Definition detectable (m : block_mutation) (b : Block) : Prop :=
  match m with
  | SetIndex v => v <> Index b
  | SetBlockTimestamp v => time.UnixNano v <> time.UnixNano (Timestamp b)
  | SetData v => dataBytes v <> dataBytes (Data b)
  | SetPreviousHash v => v <> PreviousHash b
  | SetBlockType v => v <> BlockType b
  | SetHash v => v <> Hash b
  | SetNonce v => v <> Nonce b
  | SetValidated v => v = false
  | SetMerkleRoot v => v <> MerkleRoot b
  end.

(** SHA-256 tells the two texts apart if they differ. *)
Definition no_collision (x y : string) : Prop :=
  x <> y -> sha256.Sum256 x <> sha256.Sum256 y.

(** The chain with the block at position [i] replaced. *)
Definition replace_block (i : nat) (b : Block) (bc : Blockchain) : Blockchain :=
  set_Chain (<[i := b]> (Chain bc)) bc.

(** Calls of [AddBlock] on one chain, in the order the lock of the chain
    serves them; the answers are returned in that order. *)
Fixpoint serialized (fuel : nat) (bc : Blockchain) (blocks : list Block)
  : Go (list bool * Blockchain) :=
  match blocks with
  | [] => mret ([], bc)
  | b :: rest =>
      '(ok, bc, _) ← AddBlock fuel bc b;
      '(oks, bc) ← serialized fuel bc rest;
      mret ((ok : bool) :: oks, bc)
  end.

(** The blocks raced for the next place of the chain: each was made, as by
    [NewBlock], for the index after the tail and with the hash of the
    tail. *)
Definition made_for_tail (bc : Blockchain) (b : Block) : Prop :=
  Index b = GetChainLength bc /\
  Some (PreviousHash b) = Hash <$> GetLatestBlock bc /\
  Hash b = calculateHash b.

End Chains.

(** The entry of a map under a key. *)
Definition entry (key : string) (v : GoValue) : option GoValue :=
  match v with VMap m => map_index key m | _ => None end.

End spec.

(** The six texts of an audit recommendation. *)
Definition text_excellent : string := "Approve - Excellent compliance".
Definition text_good : string := "Approve - Good compliance with minor observations".
Definition text_conditions : string :=
  "Approve with conditions - Address noted observations".
Definition text_conditional : string :=
  "Conditional approval - Requires additional documentation".
Definition text_review : string := "Review required - Significant compliance gaps".
Definition text_reject : string := "Reject - Insufficient compliance and documentation".


(** ** A scenario to run: the data of the demonstration program

    The clock starts on 2026-10-30 at 12:00:00 UTC and advances by a
    millisecond at each reading. *)

Module demo.
Import transactions entities platform platform.NGOTransparencyPlatform.
#[local] Existing Instance utc.runtime.
Local Open Scope Z_scope.

Definition T0 : time.Time := 1793361600 * time.Second.

Definition world : World :=
  mkWorld (fun i => Z.of_nat i * 1000000 + T0) 0
          (fun i => ascii_of_nat (i * 37 + 11)) 0.

Definition value {A : Type} (o : Outcome A) : option A :=
  match o with Returned a _ => Some a | _ => None end.

Definition ngoKYCData : list (string * GoValue) :=
  [ ("documents", VStrings ["registration_cert.pdf"; "80g_certificate.pdf"; "pan_card.pdf"]);
    ("address", VString "Mumbai, Maharashtra");
    ("website", VString "https://savechildren.org.in");
    ("contact", VString "+91-9876543210") ].

Definition certificates : list Certificate.t :=
  [ Certificate.mk "80G" "80G/2020/12345" "2025-12-31";
    Certificate.mk "FCRA" "FCRA/2020/67890" "2025-12-31" ].

Definition donorKYCData : list (string * GoValue) :=
  [ ("documents", VStrings ["aadhaar"; "pan"]);
    ("annual_limit", VFloat 500000);
    ("age", VInt 35);
    ("occupation", VString "Software Engineer") ].

Definition auditorCredentials : GoValue :=
  VMap [ ("license", VString "CA-12345"); ("experience", VString "15 years");
         ("certifications", VStrings ["CA"; "CPA"; "CISCA"]) ].

(** A fresh platform with one KYC-verified NGO, one KYC-verified donor and
    one verified auditor. *)
Definition registered (auditorID : string) : Go t :=
  p ← NewNGOTransparencyPlatform;
  '(p, _) ← RegisterAuditor p auditorID "PwC India" auditorCredentials
              ["financial"; "compliance"; "gst"];
  '(p, _) ← VerifyAuditorCredentials p auditorID "ICAI_AUTHORITY";
  '(p, _) ← RegisterNGO p "NGO001" "Save The Children Foundation India"
              "REG/2020/123456" "Child Welfare" ngoKYCData
              ["0xNGOSigner1"; "0xNGOSigner2"; "0xTrustee1"];
  '(p, _) ← VerifyNGOKYC p "NGO001" "GOVERNMENT_AUTHORITY" certificates;
  '(p, _) ← RegisterDonor p "DONOR001" donorKYCData;
  '(p, _) ← VerifyDonorKYC p "DONOR001" "FINTECH_KYC_PROVIDER" "premium";
  mret p.

(** An expenditure of 40000 with every field of an invoice, documents,
    attachments and a payment proof supplied. *)
Definition full_expenditureData : list (string * GoValue) :=
  [ ("amount", VFloat 40000);
    ("category", VString "Education");
    ("description", VString "School books and supplies for 50 children");
    ("invoice_number", VString "INV-2026-0042");
    ("gstin", VString "27ABCDE1234F1Z5");
    ("vendor_name", VString "Bharat Books");
    ("vendor_gstin", VString "29ABCDE1234F1Z5");
    ("documents", VStrings ["invoice.pdf"; "delivery_note.pdf"]);
    ("attachments", VSlice [VMap [("filename", VString "receipt.jpg")]]);
    ("bank_transaction_id", VString "TXN123456789") ].

Definition expenditure_run (auditorID : string) : Go (t * Result GoValue) :=
  p ← registered auditorID;
  ProcessExpenditure 0 p "NGO001" full_expenditureData auditorID.

(** What a run of the orchestrator leaves behind: the answer, and for the
    NGO "NGO001" the two totals and the lengths of the two chains. *)
Record observation := observed {
  answer : Result GoValue;
  donations_received : Q;
  expenditure_reported : Q;
  donation_blocks : nat;
  expenditure_blocks : nat
}.

Definition observe (o : Outcome (t * Result GoValue)) : option observation :=
  match o with
  | Returned (p, r) _ =>
      ngo ← NGOs p !! "NGO001";
      Some (observed r (NGO.TotalDonationsReceived ngo) (NGO.TotalExpenditureReported ngo)
              (length (blockchain.Chain (NGO.DonationBlockchain ngo)))
              (length (blockchain.Chain (NGO.ExpenditureBlockchain ngo))))
  | _ => None
  end.

Definition succeeded (o : Outcome (t * Result GoValue)) : bool :=
  match o with Returned (_, Ok _) _ => true | _ => false end.

(** The audits in the history of an auditor after a run: the compliance
    score and the recommendation of each. *)
Definition audits (auditorID : string) (o : Outcome (t * Result GoValue))
  : list (Q * string) :=
  match o with
  | Returned (p, _) _ =>
      match Auditors p !! auditorID with
      | Some a => map (fun r => (AuditResult.ComplianceScore r, AuditResult.Recommendation r))
                      (Auditor.AuditHistory a)
      | None => []
      end
  | _ => []
  end.

(** The values of a run that returns, and stand-ins for one that does not. *)
Definition or_else {A : Type} (o : Outcome A) (d : A) : A :=
  match o with Returned a _ => a | _ => d end.
Definition world_after {A : Type} (o : Outcome A) : World :=
  match o with Returned _ w => w | _ => world end.

Definition no_platform : t := mk ∅ ∅ ∅ None (SystemStats.mk 0 0 0 0 0) ∅.
Definition no_chain : blockchain.Blockchain := blockchain.mkBlockchain "" "" [] 0 [] [].
Definition no_ngo : NGO.t :=
  NGO.mk "" "" "" "" 0 (KYCData.mk false "" None "") no_chain no_chain
         (crypto.mkMultiSigWallet 0 []) 0 0 0 0 None [] "".
Definition no_auditor : Auditor.t := Auditor.mk "" "" VNil [] false [] 0 0 "" "" None.

(** The platform of the scenario, its NGO and its auditor, and the world
    they are left in. *)
Definition platform0 : t := or_else (registered "AUDITOR001" world) no_platform.
Definition world0 : World := world_after (registered "AUDITOR001" world).
Definition ngo0 : NGO.t := default no_ngo (NGOs platform0 !! "NGO001").
Definition auditor0 : Auditor.t := default no_auditor (Auditors platform0 !! "AUDITOR001").




(** *** The chains of the tests of package blockchain *)

Definition no_block : blockchain.Block :=
  blockchain.mkBlock 0 0 VNil "" "" "" 0 false [] "".

(** The data of a test block, and the block as the tests make it:
    [NewBlock(index, time.Now(), data, bc.GetLatestBlock().Hash, "donation")]. *)
Definition test_data (amount : GoValue) (donor : string) (now : time.Time) : GoValue :=
  VMap [ ("amount", amount); ("donor", VString donor); ("timestamp", VTime now) ].

Definition test_block (bc : blockchain.Blockchain) (index : Z) (amount : Q)
  : Go blockchain.Block :=
  t ← time_Now;
  let data := test_data (VFloat amount) "0x123" t in
  now ← time_Now;
  previousHash ← NGO.latest_hash bc;
  blockchain.NewBlock index now data previousHash "donation".

(** The chain of the tests, new. *)
Definition chain0 : blockchain.Blockchain :=
  or_else (blockchain.NewBlockchain "NGO001" "donation" 2 world) no_chain.
Definition world1 : World :=
  world_after (blockchain.NewBlockchain "NGO001" "donation" 2 world).
Definition genesis0 : blockchain.Block := default no_block (blockchain.Chain chain0 !! 0%nat).

(** [TestConcurrentMining]: three blocks made for index 1 on the hash of the
    genesis block, before any of them is added. *)
Definition racers : Go (list blockchain.Block) :=
  b0 ← test_block chain0 1 0;
  b1 ← test_block chain0 1 1;
  b2 ← test_block chain0 1 2;
  mret [b0; b1; b2].
Definition race_blocks : list blockchain.Block := or_else (racers world1) [].
Definition race_world : World := world_after (racers world1).
Definition race : Outcome (list bool * blockchain.Blockchain) :=
  spec.serialized 4096 chain0 race_blocks race_world.
Definition race_answers : list bool := fst (or_else race ([], no_chain)).
Definition race_chain : blockchain.Blockchain := snd (or_else race ([], no_chain)).

(** [TestAddBlock]: a block is added, then one made on the hash
    ["invalid_hash"]. *)
Definition stale_run : Go (bool * bool * blockchain.Blockchain) :=
  newBlock ← test_block chain0 1 (3 # 2);
  '(first, bc, _) ← blockchain.AddBlock 4096 chain0 newBlock;
  t ← time_Now;
  now ← time_Now;
  invalidBlock ← blockchain.NewBlock 2 now (test_data (VFloat (3 # 2)) "0x123" t)
                   "invalid_hash" "donation";
  '(second, bc, _) ← blockchain.AddBlock 4096 bc invalidBlock;
  mret (first, second, bc).

(** A chain of two blocks, the second admitted as [NewBlock] makes it
    ([validated] false) or after [Validate]. *)
Definition block1 : blockchain.Block := or_else (test_block chain0 1 2 world1) no_block.
Definition world2 : World := world_after (test_block chain0 1 2 world1).
Definition added (validated : bool)
  : Outcome (bool * blockchain.Blockchain * blockchain.Block) :=
  blockchain.AddBlock 4096 chain0
    (if validated then blockchain.Validate block1 else block1) world2.
Definition chain_of (validated : bool) : blockchain.Blockchain :=
  snd (fst (or_else (added validated) (false, no_chain, no_block))).
Definition block_of (validated : bool) : blockchain.Block :=
  snd (or_else (added validated) (false, no_chain, no_block)).

(** The data of [block1] with the amount an [int] instead of a [float64],
    and the data the test tampers with. *)
Definition retyped_data : GoValue :=
  test_data (VInt 2) "0x123" (blockchain.Timestamp block1 - 1000000).
Definition tampered_data : GoValue :=
  VMap [ ("amount", VFloat (9999 # 10)); ("donor", VString "hacker") ].

(** *** The donations of the demonstration *)

(** A fresh platform with one KYC-verified NGO and one KYC-verified
    donor. *)
Definition funded : Go t :=
  p ← NewNGOTransparencyPlatform;
  '(p, _) ← RegisterNGO p "NGO001" "Save The Children Foundation India"
              "REG/2020/123456" "Child Welfare" ngoKYCData
              ["0xNGOSigner1"; "0xNGOSigner2"; "0xTrustee1"];
  '(p, _) ← VerifyNGOKYC p "NGO001" "GOVERNMENT_AUTHORITY" certificates;
  '(p, _) ← RegisterDonor p "DONOR001" donorKYCData;
  '(p, _) ← VerifyDonorKYC p "DONOR001" "FINTECH_KYC_PROVIDER" "premium";
  mret p.


(** The three donations, then the statistics of the platform. *)
Definition three_donations : Go (t * list (Result GoValue) * PlatformStats.t) :=
  p ← funded;
  '(p, r1) ← ProcessDonation 4096 p "DONOR001" "NGO001" 50000 "UPI";
  '(p, r2) ← ProcessDonation 4096 p "DONOR001" "NGO001" 25000 "Credit Card";
  '(p, r3) ← ProcessDonation 4096 p "DONOR001" "NGO001" 30000 "Net Banking";
  stats ← GetPlatformStats p;
  mret (p, [r1; r2; r3], stats).

(** The books after a run: what the NGO "NGO001" has received, the fee the
    statistics report as collected, and the fee each donation was charged
    (0 for a donation that failed). *)
Record books := mkBooks {
  total_donations_received : Q;
  platform_fee_collected : Q;
  platform_fees : list Q
}.

Definition fee_charged (r : Result GoValue) : Q :=
  match r with
  | Ok response =>
      match spec.entry "platform_fee" response with
      | Some (VFloat fee) => Qred fee
      | _ => 0
      end
  | Err _ => 0
  end.

Definition audit_books (o : Outcome (t * list (Result GoValue) * PlatformStats.t))
  : option books :=
  match o with
  | Returned (p, results, stats) _ =>
      ngo ← NGOs p !! "NGO001";
      Some (mkBooks (Qred (NGO.TotalDonationsReceived ngo))
                    (Qred (PlatformStats.PlatformFeeCollected stats))
                    (map fee_charged results))
  | _ => None
  end.
End demo.

(** ** The Go monad and the runtime *)

(** [go_run] runs the effects of the Go monad that are in sight. *)
Ltac go_run :=
  cbv beta iota zeta delta
    [mbind mret Go_bind Go_ret time_Since time_Now rand_Read panic spin strings_Repeat];
  cbn [clock ticks entropy drawn].
Ltac go_run_in H :=
  cbv beta iota zeta delta
    [mbind mret Go_bind Go_ret time_Since time_Now rand_Read panic spin strings_Repeat] in H;
  cbn [clock ticks entropy drawn] in H.

Section GoFacts.
Context {rt : GoRuntime}.
Local Open Scope Z_scope.

Lemma bind_returned {A B : Type} (m : Go A) (k : A -> Go B) (w w' : World) (a : A) :
  m w = Returned a w' -> (m ≫= k) w = k a w'.
Proof. intros H. unfold mbind, Go_bind. rewrite H. reflexivity. Qed.

Lemma bind_inv {A B : Type} (m : Go A) (k : A -> Go B) (w w2 : World) (b : B) :
  (m ≫= k) w = Returned b w2 ->
  exists a w1, m w = Returned a w1 /\ k a w1 = Returned b w2.
Proof.
  unfold mbind, Go_bind. destruct (m w) as [a w1| |]; intros H; try discriminate.
  exists a, w1. split; [reflexivity | exact H].
Qed.

Lemma time_Now_eq (w : World) : time_Now w = Returned (spec.reading w 0) (spec.later 1 w).
Proof. reflexivity. Qed.

Lemma later_later (n m : nat) (w : World) :
  spec.later n (spec.later m w) = spec.later (n + m) w.
Proof. unfold spec.later, spec.after. simpl. f_equal. lia. Qed.

Lemma reading_later (n i : nat) (w : World) :
  spec.reading (spec.later n w) i = spec.reading w (i + n).
Proof. unfold spec.reading, spec.later, spec.after. simpl. f_equal. lia. Qed.

(** [Hours] and the comparisons on durations. *)
Lemma Hours_div_24_le_90 (d : time.Duration) :
  Qle_bool (time.Hours d / 24) 90 = (d <=? 90 * spec.Day).
Proof.
  unfold time.Hours, spec.Day, time.Hour, time.Second.
  destruct (Z.leb_spec d (90 * (24 * (3600 * 1000000000)))) as [H|H].
  - apply Qle_bool_iff. unfold Qle, Qdiv, Qmult, Qinv, inject_Z. simpl. lia.
  - destruct (Qle_bool _ _) eqn:E; [|reflexivity].
    apply Qle_bool_iff in E. unfold Qle, Qdiv, Qmult, Qinv, inject_Z in E. simpl in E. lia.
Qed.

Lemma Sub_le (t u : time.Time) (d : Z) :
  minInt64 <= d < maxInt64 -> (time.Sub t u <=? d) = (t - u <=? d).
Proof.
  intros Hd. unfold time.Sub.
  destruct (Z.ltb_spec maxInt64 (t - u)); [|destruct (Z.ltb_spec (t - u) minInt64)];
    destruct (Z.leb_spec (t - u) d); try reflexivity;
    first [apply Z.leb_le | apply Z.leb_gt];
    unfold maxInt64, minInt64 in *; change (2 ^ 63) with 9223372036854775808 in *; lia.
Qed.

End GoFacts.

(** ** The compliance score *)

Section Compliance.
Context {rt : GoRuntime}.
Import transactions.
Local Open Scope Z_scope.

Lemma VerifyGSTIN_regex (gstin : string) :
  VerifyGSTIN gstin = match_classes gstinRegex gstin.
Proof. unfold VerifyGSTIN. destruct gstin; reflexivity. Qed.

Lemma recent_invoice (now date : time.Time) :
  Qle_bool (time.Hours (time.Sub now date) / 24) 90 = (now - date <=? 90 * spec.Day).
Proof.
  rewrite Hours_div_24_le_90. apply Sub_le.
  unfold minInt64, maxInt64. split; vm_compute; congruence.
Qed.

Lemma nonempty_length {A : Type} (l : list A) :
  (0 <? length l)%nat = negb (length l =? 0)%nat.
Proof. destruct l; reflexivity. Qed.

(** The score the code computes, clause by clause. *)
Lemma calculateComplianceScore_eq (et : ExpenditureTransaction.t) (w : World) :
  exists score,
    calculateComplianceScore et w = Returned score (spec.later 1 w) /\
    (score == spec.weighted_sum (spec.clauses_of et (spec.reading w 0)))%Q.
Proof.
  unfold calculateComplianceScore. go_run. eexists. split; [reflexivity|].
  change (clock w (ticks w)) with (spec.reading w 0).
  rewrite recent_invoice, VerifyGSTIN_regex, !nonempty_length.
  unfold spec.weighted_sum, spec.clauses_of, spec.weight; cbn [spec.invoice_number_present
    spec.gstin_well_formed spec.vendor_details_complete spec.payment_proof
    spec.supporting_documents spec.has_attachments spec.invoice_recent].
  destruct (negb (InvoiceDetails.InvoiceNumber _ =? "")%string);
  destruct (match_classes gstinRegex _);
  destruct (negb (InvoiceDetails.VendorName _ =? "")%string &&
            negb (InvoiceDetails.VendorGSTIN _ =? "")%string);
  destruct (negb (InvoiceDetails.BankTransactionID _ =? "")%string ||
            negb (InvoiceDetails.ChequeNumber _ =? "")%string);
  destruct (negb (length (InvoiceDetails.Documents _) =? 0)%nat);
  destruct (negb (length (ExpenditureTransaction.Attachments et) =? 0)%nat);
  destruct (spec.reading w 0 - _ <=? 90 * spec.Day);
  vm_compute; reflexivity.
Qed.

Lemma weighted_sum_bounds (c : spec.clauses) :
  (0 <= spec.weighted_sum c <= 100)%Q.
Proof.
  destruct c as [[] [] [] [] [] [] []]; vm_compute; split; discriminate.
Qed.

(** C8: for every expenditure transaction the compliance score is the sum
    of the weights of exactly the clauses that hold (invoice number 20,
    GSTIN 20, vendor details 15, payment proof 15, documents 15,
    attachments 10, recency 5); it never exceeds 100, is 100 when all
    clauses hold and 0 when none does. *)
Theorem compliance_score_is_weighted_sum
    (et : ExpenditureTransaction.t) (w : World) :
  exists score,
    calculateComplianceScore et w = Returned score (spec.later 1 w) /\
    let c := spec.clauses_of et (spec.reading w 0) in
    (score == spec.weighted_sum c)%Q /\ (0 <= score <= 100)%Q /\
    (spec.all_hold c -> (score == 100)%Q) /\
    (spec.none_holds c -> (score == 0)%Q).
Proof.
  destruct (calculateComplianceScore_eq et w) as (score & Hrun & Hsum).
  exists score. split; [exact Hrun|]. cbn zeta.
  split; [exact Hsum|]. split.
  - rewrite Hsum. apply weighted_sum_bounds.
  - split; intros H; rewrite Hsum; unfold spec.weighted_sum;
      [destruct H as (-> & -> & -> & -> & -> & -> & ->)
      |destruct H as (-> & -> & -> & -> & -> & -> & ->)]; reflexivity.
Qed.

End Compliance.

(** ** The audit of an expenditure by the orchestrator *)

Section Audit.
Context {rt : GoRuntime}.
Import transactions entities platform platform.NGOTransparencyPlatform.
Local Open Scope Q_scope.

(** The six recommendations, by the bucket of the score. *)
Lemma generateRecommendation_buckets (a : Auditor.t) (tx : ExpenditureTransaction.t) :
  let score := ExpenditureTransaction.ComplianceScore tx in
  let rec := Auditor.generateRecommendation a tx in
  (90 <= score -> rec = text_excellent) /\
  (80 <= score < 90 -> rec = text_good) /\
  (70 <= score < 80 -> rec = text_conditions) /\
  (60 <= score < 70 -> rec = text_conditional) /\
  (50 <= score < 60 -> rec = text_review) /\
  (score < 50 -> rec = text_reject).
Proof.
  cbn zeta. unfold Auditor.generateRecommendation, Qgeb.
  destruct (Qle_bool 90 _) eqn:E90; [apply Qle_bool_iff in E90|].
  { repeat split; intros; first [reflexivity | lra]. }
  destruct (Qle_bool 80 _) eqn:E80; [apply Qle_bool_iff in E80|].
  { assert (~ 90 <= ExpenditureTransaction.ComplianceScore tx)
      by (intros H; apply Qle_bool_iff in H; congruence).
    repeat split; intros; first [reflexivity | lra]. }
  destruct (Qle_bool 70 _) eqn:E70; [apply Qle_bool_iff in E70|].
  { assert (~ 80 <= ExpenditureTransaction.ComplianceScore tx)
      by (intros H; apply Qle_bool_iff in H; congruence).
    repeat split; intros; first [reflexivity | lra]. }
  destruct (Qle_bool 60 _) eqn:E60; [apply Qle_bool_iff in E60|].
  { assert (~ 70 <= ExpenditureTransaction.ComplianceScore tx)
      by (intros H; apply Qle_bool_iff in H; congruence).
    repeat split; intros; first [reflexivity | lra]. }
  destruct (Qle_bool 50 _) eqn:E50; [apply Qle_bool_iff in E50|].
  { assert (~ 60 <= ExpenditureTransaction.ComplianceScore tx)
      by (intros H; apply Qle_bool_iff in H; congruence).
    repeat split; intros; first [reflexivity | lra]. }
  assert (~ 50 <= ExpenditureTransaction.ComplianceScore tx)
    by (intros H; apply Qle_bool_iff in H; congruence).
  repeat split; intros; first [reflexivity | lra].
Qed.


(** [AuditExpenditure] returns for an auditor whose identifier has eight
    bytes; it records the audit in the history of the auditor. *)
Lemma AuditExpenditure_returns (a : Auditor.t) (tx : ExpenditureTransaction.t)
    (notes : string) (w : World) :
  (8 <= String.length (Auditor.AuditorID a))%nat ->
  exists res,
    Auditor.AuditExpenditure a tx notes w =
      Returned (Auditor.set_AuditHistory (append (Auditor.AuditHistory a) res) a, res)
               (spec.later 3 w) /\
    AuditResult.Recommendation res = Auditor.generateRecommendation a tx /\
    AuditResult.ComplianceScore res = ExpenditureTransaction.ComplianceScore tx.
Proof.
  intros Hlen. unfold Auditor.AuditExpenditure, Auditor.slice_to, Auditor.generateFindings.
  apply Nat.ltb_ge in Hlen. rewrite Hlen. go_run.
  eexists. split; [reflexivity|]. split; reflexivity.
Qed.

(** A shorter identifier makes it panic. *)
Lemma AuditExpenditure_panics (a : Auditor.t) (tx : ExpenditureTransaction.t)
    (notes : string) (w : World) :
  (String.length (Auditor.AuditorID a) < 8)%nat ->
  exists msg, Auditor.AuditExpenditure a tx notes w = Panicked msg.
Proof.
  intros Hlen. unfold Auditor.AuditExpenditure, Auditor.slice_to.
  apply Nat.ltb_lt in Hlen. rewrite Hlen. go_run. eexists. reflexivity.
Qed.

(** A recommendation that is not an approval ends the call with the text
    of the recommendation; nothing but the history of the auditor changes. *)
Lemma audit_and_admit_rejects (fuel : nat) (p : t) (ngoID : string) (ngo : NGO.t)
    (auditorID : string) (auditor : Auditor.t) (amount : Q) (category : string)
    (tx : ExpenditureTransaction.t) (w : World) :
  (8 <= String.length (Auditor.AuditorID auditor))%nat ->
  shouldApprove (Auditor.generateRecommendation auditor tx) = false ->
  exists res,
    AuditResult.Recommendation res = Auditor.generateRecommendation auditor tx /\
    AuditResult.ComplianceScore res = ExpenditureTransaction.ComplianceScore tx /\
    audit_and_admit fuel p ngoID ngo auditorID auditor amount category tx w =
      Returned
        (set_Auditors
           (<[auditorID := Auditor.set_AuditHistory
                             (append (Auditor.AuditHistory auditor) res) auditor]>
              (Auditors p)) p,
         Err ("expenditure rejected by auditor: " ++
              Auditor.generateRecommendation auditor tx))
        (spec.later 5 w).
Proof.
  intros Hlen Hno.
  destruct (AuditExpenditure_returns auditor tx "" w Hlen) as (res & Hrun & Hrec & Hscore).
  exists res. split; [exact Hrec|]. split; [exact Hscore|].
  unfold audit_and_admit. rewrite (bind_returned _ _ _ _ _ Hrun).
  cbv beta iota. rewrite Hrec, Hno.
  unfold ValidateByAuditor. go_run. cbn [negb]. reflexivity.
Qed.

End Audit.

(** ** [ProcessExpenditure] of the orchestrator *)

Section OrchestratorExpenditure.
Context {rt : GoRuntime}.
Import transactions entities platform platform.NGOTransparencyPlatform.
Local Open Scope Q_scope.

(** The transaction [ProcessExpenditure] builds: nothing of
    [expenditureData] but the amount, the category and the description
    reaches it. *)
Lemma build_expenditure_eq (ngoID : string) (data : list (string * GoValue))
    (amount : Q) (w : World) :
  map_index "amount" data = Some (VFloat amount) ->
  exists category tx,
    build_expenditure ngoID data w =
      Returned (Ok (amount, category, tx)) (spec.after 4 16 w) /\
    ExpenditureTransaction.InvoiceDetails tx = spec.synthesized_invoice w /\
    ExpenditureTransaction.Attachments tx = [] /\
    ExpenditureTransaction.Amount tx = amount /\
    ExpenditureTransaction.ComplianceScore tx ==
      (if (spec.reading w 3 - spec.reading w 1 <=? 90 * spec.Day)%Z then 45 else 40).
Proof.
  intros Hamount. unfold build_expenditure. rewrite Hamount.
  unfold NewExpenditureTransaction. go_run.
  match goal with
  | |- context [calculateComplianceScore ?t ?w'] =>
      destruct (calculateComplianceScore_eq t w') as (score & Hrun & Hsum); rewrite Hrun
  end.
  eexists _, _. split; [reflexivity|].
  cbn [ExpenditureTransaction.set_ComplianceScore ExpenditureTransaction.InvoiceDetails
       ExpenditureTransaction.Attachments ExpenditureTransaction.Amount
       ExpenditureTransaction.ComplianceScore].
  split; [reflexivity|]. split; [reflexivity|]. split; [reflexivity|].
  rewrite Hsum. unfold spec.weighted_sum, spec.clauses_of.
  cbn [ExpenditureTransaction.InvoiceDetails ExpenditureTransaction.Attachments
       InvoiceDetails.InvoiceNumber InvoiceDetails.GSTIN InvoiceDetails.VendorName
       InvoiceDetails.VendorGSTIN InvoiceDetails.BankTransactionID
       InvoiceDetails.ChequeNumber InvoiceDetails.Documents InvoiceDetails.InvoiceDate
       spec.invoice_number_present spec.gstin_well_formed spec.vendor_details_complete
       spec.payment_proof spec.supporting_documents spec.has_attachments
       spec.invoice_recent].
  change (match_classes gstinRegex "27ABCDE1234F1Z5") with true.
  change (spec.reading _ 0 - clock w (S (ticks w)))%Z
    with (spec.reading w 3 - spec.reading w 1)%Z.
  destruct (spec.reading w 3 - spec.reading w 1 <=? 90 * spec.Day)%Z; reflexivity.
Qed.

(** [ProcessExpenditure] is its guards, then [build_expenditure], then
    [audit_and_admit]. *)
Lemma ProcessExpenditure_steps (fuel : nat) (p : t) (ngoID : string)
    (data : list (string * GoValue)) (auditorID : string) (ngo : NGO.t)
    (auditor : Auditor.t) (amount : Q) (category : string)
    (tx : ExpenditureTransaction.t) (w w' : World) :
  NGOs p !! ngoID = Some ngo ->
  Auditors p !! auditorID = Some auditor ->
  Auditor.Verified auditor = true ->
  build_expenditure ngoID data w = Returned (Ok (amount, category, tx)) w' ->
  ProcessExpenditure fuel p ngoID data auditorID w =
  audit_and_admit fuel p ngoID ngo auditorID auditor amount category tx w'.
Proof.
  intros Hngo Haud Hver Hbuild. unfold ProcessExpenditure.
  rewrite Hngo, Haud, Hver. cbn [negb].
  rewrite (bind_returned _ _ _ _ _ Hbuild). reflexivity.
Qed.

(** What the two lemmas give together when the clock is prompt. *)
Lemma ProcessExpenditure_synthesizes_invoice_aux (fuel : nat) (p : t) (ngoID : string)
    (data : list (string * GoValue)) (auditorID : string) (ngo : NGO.t)
    (auditor : Auditor.t) (amount : Q) (w : World) :
  NGOs p !! ngoID = Some ngo ->
  Auditors p !! auditorID = Some auditor ->
  Auditor.Verified auditor = true ->
  map_index "amount" data = Some (VFloat amount) ->
  spec.prompt w ->
  exists category tx,
    ProcessExpenditure fuel p ngoID data auditorID w =
      audit_and_admit fuel p ngoID ngo auditorID auditor amount category tx
                      (spec.after 4 16 w) /\
    ExpenditureTransaction.ComplianceScore tx == 45.
Proof.
  intros Hngo Haud Hver Hamount Hprompt.
  destruct (build_expenditure_eq ngoID data amount w Hamount)
    as (category & tx & Hbuild & _ & _ & _ & Hscore).
  exists category, tx.
  split; [exact (ProcessExpenditure_steps fuel p ngoID data auditorID ngo auditor amount
                   category tx w _ Hngo Haud Hver Hbuild)|].
  rewrite Hscore. apply Z.leb_le in Hprompt. rewrite Hprompt. reflexivity.
Qed.

End OrchestratorExpenditure.

Section ExpenditureClaims.
Context {rt : GoRuntime}.
Import transactions entities platform platform.NGOTransparencyPlatform.
Local Open Scope Q_scope.

(** C2: in every call of the orchestrator's [ProcessExpenditure] that gets
    past its guards (the NGO and the auditor are registered, the auditor is
    verified, the amount is a float64), whatever else [expenditureData]
    holds, the transaction that is built and handed to the audit carries the
    synthesized invoice (number ["INV-"] and the Unix time, GSTIN
    ["27ABCDE1234F1Z5"], vendor ["Test Vendor"], no vendor GSTIN, the
    current instant as date, no documents, no bank transaction id, no
    cheque number) and no attachments, and its compliance score is 45.  The
    two clock readings the recency clause compares are taken within one
    call: they are assumed to be at most 90 days apart. *)
Theorem ProcessExpenditure_synthesizes_invoice (fuel : nat) (p : t) (ngoID : string)
    (data : list (string * GoValue)) (auditorID : string) (ngo : NGO.t)
    (auditor : Auditor.t) (amount : Q) (w : World) :
  NGOs p !! ngoID = Some ngo ->
  Auditors p !! auditorID = Some auditor ->
  Auditor.Verified auditor = true ->
  map_index "amount" data = Some (VFloat amount) ->
  spec.prompt w ->
  exists category tx,
    build_expenditure ngoID data w =
      Returned (Ok (amount, category, tx)) (spec.after 4 16 w) /\
    ProcessExpenditure fuel p ngoID data auditorID w =
      audit_and_admit fuel p ngoID ngo auditorID auditor amount category tx
                      (spec.after 4 16 w) /\
    ExpenditureTransaction.InvoiceDetails tx = spec.synthesized_invoice w /\
    ExpenditureTransaction.Attachments tx = [] /\
    ExpenditureTransaction.ComplianceScore tx == 45.
Proof.
  intros Hngo Haud Hver Hamount Hprompt.
  destruct (build_expenditure_eq ngoID data amount w Hamount)
    as (category & tx & Hbuild & Hinv & Hatt & _ & Hscore).
  exists category, tx. split; [exact Hbuild|].
  split; [exact (ProcessExpenditure_steps fuel p ngoID data auditorID ngo auditor amount
                   category tx w _ Hngo Haud Hver Hbuild)|].
  split; [exact Hinv|]. split; [exact Hatt|].
  rewrite Hscore. apply Z.leb_le in Hprompt. rewrite Hprompt. reflexivity.
Qed.


(** C1, amended: with a registered NGO and a registered verified auditor
    whose identifier has eight bytes, [ProcessExpenditure] with an amount
    (40000 or any other) and whatever else in [expenditureData] audits a
    transaction of compliance score 45, is recommended "Reject -
    Insufficient compliance and documentation", fails with that text,
    appends no block and leaves the totals of the NGO as they were. *)
Theorem ProcessExpenditure_rejects (fuel : nat) (p : t) (ngoID : string)
    (data : list (string * GoValue)) (auditorID : string) (ngo : NGO.t)
    (auditor : Auditor.t) (amount : Q) (w : World) :
  NGOs p !! ngoID = Some ngo ->
  Auditors p !! auditorID = Some auditor ->
  Auditor.Verified auditor = true ->
  (8 <= String.length (Auditor.AuditorID auditor))%nat ->
  map_index "amount" data = Some (VFloat amount) ->
  spec.prompt w ->
  exists p' auditor' res,
    ProcessExpenditure fuel p ngoID data auditorID w =
      Returned (p', Err ("expenditure rejected by auditor: " ++ text_reject))
               (spec.after 9 16 w) /\
    NGOs p' = NGOs p /\ SystemStats p' = SystemStats p /\
    Auditors p' !! auditorID = Some auditor' /\
    last (Auditor.AuditHistory auditor') = Some res /\
    AuditResult.ComplianceScore res == 45 /\
    AuditResult.Recommendation res = text_reject.
Proof.
  intros Hngo Haud Hver Hlen Hamount Hprompt.
  destruct (ProcessExpenditure_synthesizes_invoice_aux fuel p ngoID data auditorID ngo
              auditor amount w Hngo Haud Hver Hamount Hprompt)
    as (category & tx & Hrun & Hscore).
  assert (Hrec : Auditor.generateRecommendation auditor tx = text_reject).
  { apply generateRecommendation_buckets. rewrite Hscore. reflexivity. }
  assert (Hno : shouldApprove (Auditor.generateRecommendation auditor tx) = false)
    by (rewrite Hrec; reflexivity).
  destruct (audit_and_admit_rejects fuel p ngoID ngo auditorID auditor amount category tx
              (spec.after 4 16 w) Hlen Hno) as (res & Hres & Hresscore & Hadmit).
  eexists _, _, res. split.
  { rewrite Hrun, Hadmit, Hrec. reflexivity. }
  split; [reflexivity|]. split; [reflexivity|].
  split; [cbn [Auditors set_Auditors]; apply lookup_insert_eq|].
  split; [cbn; unfold append; apply last_snoc|].
  split; [rewrite Hresscore; exact Hscore | rewrite Hres; exact Hrec].
Qed.

End ExpenditureClaims.

(** *** The scenario, run *)

Section ExpenditureRuns.
Import transactions entities platform platform.NGOTransparencyPlatform.
#[local] Existing Instance utc.runtime.

Lemma demo_registered :
  NGOs demo.platform0 !! "NGO001" = Some demo.ngo0 /\
  Auditors demo.platform0 !! "AUDITOR001" = Some demo.auditor0 /\
  Auditor.Verified demo.auditor0 = true /\
  (8 <= String.length (Auditor.AuditorID demo.auditor0))%nat /\
  spec.prompt demo.world0.
Proof.
  split; [vm_compute; reflexivity|]. split; [vm_compute; reflexivity|].
  split; [vm_compute; reflexivity|]. split; [vm_compute; lia|].
  vm_compute. congruence.
Qed.

(** C1, as stated, fails: on the fresh platform of the scenario the
    expenditure of 40000 with every field supplied is audited at 45, not
    100, is rejected, is not appended (the expenditure chain keeps its
    genesis block alone) and the total reported stays 0. *)
Lemma full_expenditure_is_rejected :
  demo.observe (demo.expenditure_run "AUDITOR001" demo.world) =
    Some (demo.observed
            (Err "expenditure rejected by auditor: Reject - Insufficient compliance and documentation")
            0 0 1 1) /\
  demo.audits "AUDITOR001" (demo.expenditure_run "AUDITOR001" demo.world) =
    [(45%Q, "Reject - Insufficient compliance and documentation")] /\
  ~ (exists p' answer w',
       demo.expenditure_run "AUDITOR001" demo.world = Returned (p', Ok answer) w').
Proof.
  split; [vm_compute; reflexivity|]. split; [vm_compute; reflexivity|].
  intros (p' & answer & w' & H).
  assert (Hok : demo.succeeded (demo.expenditure_run "AUDITOR001" demo.world) = true)
    by (rewrite H; reflexivity).
  revert Hok. vm_compute. intros Hok. discriminate Hok.
Qed.

Lemma ProcessExpenditure_rejects_witness :
  exists p',
    ProcessExpenditure 0 demo.platform0 "NGO001" demo.full_expenditureData
                        "AUDITOR001" demo.world0 =
      Returned (p', Err ("expenditure rejected by auditor: " ++ text_reject))
               (spec.after 9 16 demo.world0) /\
    NGOs p' = NGOs demo.platform0.
Proof.
  destruct demo_registered as (Hngo & Haud & Hver & Hlen & Hprompt).
  destruct (ProcessExpenditure_rejects 0 demo.platform0 "NGO001"
              demo.full_expenditureData "AUDITOR001" demo.ngo0 demo.auditor0 40000
              demo.world0 Hngo Haud Hver Hlen eq_refl Hprompt)
    as (p' & _ & _ & Hrun & HN & _).
  exists p'. split; [exact Hrun | exact HN].
Defined.

Lemma ProcessExpenditure_synthesizes_invoice_witness :
  exists category tx,
    build_expenditure "NGO001" demo.full_expenditureData demo.world0 =
      Returned (Ok (40000%Q, category, tx)) (spec.after 4 16 demo.world0) /\
    ExpenditureTransaction.InvoiceDetails tx = spec.synthesized_invoice demo.world0 /\
    ExpenditureTransaction.Attachments tx = [] /\
    (ExpenditureTransaction.ComplianceScore tx == 45)%Q.
Proof.
  destruct demo_registered as (Hngo & Haud & Hver & _ & Hprompt).
  destruct (ProcessExpenditure_synthesizes_invoice 0 demo.platform0 "NGO001"
              demo.full_expenditureData "AUDITOR001" demo.ngo0 demo.auditor0 40000
              demo.world0 Hngo Haud Hver eq_refl Hprompt)
    as (category & tx & Hbuild & _ & Hinv & Hatt & Hscore).
  exists category, tx. repeat split; assumption.
Defined.


(** The demonstration program registers its auditor as "AUD001": with it
    the call panics in [AuditExpenditure], at [a.AuditorID[:8]]. *)
Lemma short_auditor_id_panics :
  demo.expenditure_run "AUD001" demo.world =
    Panicked "slice bounds out of range [:8] with length 6".
Proof. vm_compute. reflexivity. Qed.

End ExpenditureRuns.

(** ** The proof stub *)

Section ZKProofFacts.
Context {rt : GoRuntime}.
Local Open Scope Z_scope.

Lemma class_af09_lower_hex (c : ascii) : class_af09 c = spec.lower_hex_digit c.
Proof. destruct c as [[] [] [] [] [] [] [] []]; vm_compute; reflexivity. Qed.

Lemma match_classes_repeat (cl : ascii -> bool) (n : nat) (s : string) :
  match_classes (repeat cl n) s = true <->
  String.length s = n /\ Forall (fun c => cl c = true) (list_ascii_of_string s).
Proof.
  revert s. induction n as [|n IH]; intros [|c s]; simpl.
  - split; [intros _; split; [reflexivity | constructor] | reflexivity].
  - split; [discriminate | intros [H _]; discriminate H].
  - split; [discriminate | intros [H _]; discriminate H].
  - rewrite andb_true_iff, IH. split.
    + intros (Hc & Hlen & Hall). split; [f_equal; exact Hlen | constructor; assumption].
    + intros (Hlen & Hall). inversion Hall; subst.
      split; [assumption | split; [congruence | assumption]].
Qed.

Lemma hexPattern_hex64 (s : string) :
  match_classes crypto.hexPattern s = true <-> spec.hex64 s.
Proof.
  unfold crypto.hexPattern, spec.hex64. rewrite match_classes_repeat.
  split; intros [Hlen Hall]; (split; [exact Hlen|]);
    eapply Forall_impl; try exact Hall; intros c Hc; cbn beta in *;
    [rewrite <- class_af09_lower_hex | rewrite class_af09_lower_hex]; exact Hc.
Qed.

(** [hex.EncodeToString] writes two lowercase hexadecimal digits a byte. *)
Lemma hexdigits_of_byte (b : ascii) :
  class_af09 (hexdigit (N_of_ascii b / 16)) = true /\
  class_af09 (hexdigit (N_of_ascii b mod 16)) = true.
Proof. destruct b as [[] [] [] [] [] [] [] []]; vm_compute; split; reflexivity. Qed.

Lemma EncodeToString_length (src : string) :
  String.length (EncodeToString src) = (2 * String.length src)%nat.
Proof. induction src as [|b src IH]; simpl; [reflexivity | rewrite IH; lia]. Qed.

Lemma EncodeToString_digits (src : string) :
  Forall (fun c => class_af09 c = true) (list_ascii_of_string (EncodeToString src)).
Proof.
  induction src as [|b src IH]; simpl; [constructor|].
  destruct (hexdigits_of_byte b). repeat constructor; assumption.
Qed.

(** [sha256.Sum256] returns a [[32]byte]. *)
Lemma Sum256_length (data : string) : String.length (sha256.Sum256 data) = 32%nat.
Proof.
  unfold sha256.Sum256. cbv zeta.
  match goal with
  | |- context [fold_left sha256.compress ?bs sha256.H0] =>
      generalize (fold_left sha256.compress bs sha256.H0)
  end.
  intros s. cbn [sha256.word_bytes String.append String.length]. reflexivity.
Qed.

Lemma sha256_hex_pattern (data : string) :
  match_classes crypto.hexPattern (sha256_hex data) = true.
Proof.
  unfold crypto.hexPattern. apply match_classes_repeat. unfold sha256_hex. split.
  - rewrite EncodeToString_length, Sum256_length. reflexivity.
  - apply EncodeToString_digits.
Qed.

Lemma sha256_hex_nonempty (data : string) : (sha256_hex data =? "")%string = false.
Proof.
  pose proof (EncodeToString_length (sha256.Sum256 data)) as H.
  rewrite Sum256_length in H. unfold sha256_hex.
  destruct (EncodeToString (sha256.Sum256 data)); [discriminate H | reflexivity].
Qed.

(** The 24-hour test of [VerifyProof], on nanoseconds. *)
Lemma within_24_hours (now timestamp : time.Time) :
  Qgtb (Qabs (time.Hours (time.Sub now timestamp))) 24 =
  negb (Z.abs (now - timestamp) <=? 24 * time.Hour).
Proof.
  unfold Qgtb. apply (f_equal negb).
  assert (Hsub : (Z.abs (time.Sub now timestamp) <=? 24 * time.Hour) =
                 (Z.abs (now - timestamp) <=? 24 * time.Hour)).
  { unfold time.Sub, maxInt64, minInt64, time.Hour, time.Second.
    change (2 ^ 63) with 9223372036854775808.
    repeat match goal with
           | |- context [if ?c then _ else _] => destruct c eqn:?
           end;
    repeat match goal with
           | H : (_ <? _) = true |- _ => apply Z.ltb_lt in H
           | H : (_ <? _) = false |- _ => apply Z.ltb_ge in H
           end;
    destruct (Z.leb_spec (Z.abs (now - timestamp)) (24 * (3600 * 1000000000)));
    first [reflexivity | apply Z.leb_le; lia | apply Z.leb_gt; lia]. }
  rewrite <- Hsub. generalize (time.Sub now timestamp). intros d.
  unfold time.Hours, time.Hour, time.Second.
  destruct (Z.leb_spec (Z.abs d) (24 * (3600 * 1000000000))) as [H|H].
  - apply Qle_bool_iff. apply Qabs_Qle_condition.
    unfold Qle, Qdiv, Qmult, Qinv, Qopp, inject_Z. simpl. lia.
  - destruct (Qle_bool _ _) eqn:E; [|reflexivity].
    apply Qle_bool_iff, Qabs_Qle_condition in E.
    unfold Qle, Qdiv, Qmult, Qinv, Qopp, inject_Z in E. simpl in E. lia.
Qed.

(** What [GenerateProof] returns: three digests in hexadecimal. *)
Lemma GenerateProof_returns (donorID : string) (amount : Q) (timestamp : time.Time)
    (w : World) :
  exists proof w',
    crypto.GenerateProof donorID amount timestamp w = Returned proof w' /\
    (exists d1, crypto.Commitment proof = sha256_hex d1) /\
    (exists d2, crypto.Nullifier proof = sha256_hex d2) /\
    (exists d3, crypto.Proof_ proof = sha256_hex d3) /\
    w' = spec.later (if time.IsZero timestamp then 2 else 1) w.
Proof.
  unfold crypto.GenerateProof. destruct (time.IsZero timestamp); go_run;
    (eexists _, _; split; [reflexivity|]; cbn [crypto.Commitment crypto.Nullifier crypto.Proof_];
     repeat split; eexists; reflexivity).
Qed.

End ZKProofFacts.

Section ZKProofClaim.
Context {rt : GoRuntime}.
Local Open Scope Z_scope.

Lemma hex64_nonempty (s : string) : spec.hex64 s -> (s =? "")%string = false.
Proof. intros [Hlen _]. destruct s; [discriminate Hlen | reflexivity]. Qed.

Lemma VerifyProof_some (p : crypto.ZKProof) (amount : Q) (timestamp : time.Time)
    (w : World) :
  exists b w',
    crypto.VerifyProof (Some p) amount timestamp w = Returned b w' /\
    (b = true <->
     spec.hex64 (crypto.Commitment p) /\ spec.hex64 (crypto.Nullifier p) /\
     spec.hex64 (crypto.Proof_ p) /\
     Z.abs (spec.reading w 0 - timestamp) <= 24 * time.Hour).
Proof.
  unfold crypto.VerifyProof.
  destruct ((crypto.Commitment p =? "")%string || (crypto.Nullifier p =? "")%string
            || (crypto.Proof_ p =? "")%string) eqn:Hempty.
  - go_run. eexists _, _. split; [reflexivity|]. split; [discriminate|].
    intros (H1 & H2 & H3 & _).
    rewrite (hex64_nonempty _ H1), (hex64_nonempty _ H2), (hex64_nonempty _ H3) in Hempty.
    discriminate Hempty.
  - go_run. change (clock w (ticks w)) with (spec.reading w 0).
    rewrite within_24_hours.
    destruct (Z.leb_spec (Z.abs (spec.reading w 0 - timestamp)) (24 * time.Hour)) as [Ht|Ht];
      cbn [negb]; eexists _, _; (split; [reflexivity|]).
    + rewrite !andb_true_iff, !hexPattern_hex64. tauto.
    + split; [discriminate | intros (_ & _ & _ & H); lia].
Qed.

(** C9: [VerifyProof] answers true exactly when the proof is present, its
    commitment, nullifier and proof are each 64 lowercase hexadecimal
    digits, and the instant it reads from the clock is within 24 hours of
    [timestamp]; a proof made by [GenerateProof], for any donor and amount,
    verifies at any instant within 24 hours of the timestamp given. *)
Theorem VerifyProof_iff_hex64_and_fresh
    (proof : option crypto.ZKProof) (amount : Q) (timestamp : time.Time) (w : World)
    (donorID : string) (donated : Q) (made : time.Time) (w0 : World) :
  (exists b w',
     crypto.VerifyProof proof amount timestamp w = Returned b w' /\
     (b = true <->
      exists p, proof = Some p /\
        spec.hex64 (crypto.Commitment p) /\ spec.hex64 (crypto.Nullifier p) /\
        spec.hex64 (crypto.Proof_ p) /\
        Z.abs (spec.reading w 0 - timestamp) <= 24 * time.Hour)) /\
  (exists p w1,
     crypto.GenerateProof donorID donated made w0 = Returned p w1 /\
     (Z.abs (spec.reading w 0 - timestamp) <= 24 * time.Hour ->
      crypto.VerifyProof (Some p) amount timestamp w = Returned true (spec.later 1 w))).
Proof.
  split.
  - destruct proof as [p|].
    + destruct (VerifyProof_some p amount timestamp w) as (b & w' & Hrun & Hiff).
      exists b, w'. split; [exact Hrun|]. rewrite Hiff. split.
      * intros H. exists p. split; [reflexivity | exact H].
      * intros (p' & Hp & H). injection Hp as <-. exact H.
    + exists false, w. split; [reflexivity|].
      split; [discriminate | intros (p & Hp & _); discriminate Hp].
  - destruct (GenerateProof_returns donorID donated made w0)
      as (p & w1 & Hgen & (d1 & H1) & (d2 & H2) & (d3 & H3) & _).
    exists p, w1. split; [exact Hgen|]. intros Ht.
    unfold crypto.VerifyProof. rewrite H1, H2, H3, !sha256_hex_nonempty.
    cbn [orb]. go_run. change (clock w (ticks w)) with (spec.reading w 0).
    rewrite within_24_hours. apply Z.leb_le in Ht. rewrite Ht. cbn [negb].
    rewrite !sha256_hex_pattern. reflexivity.
Qed.

End ZKProofClaim.

(** ** The e-bill of a donation *)

Section EBillFacts.
Context {rt : GoRuntime}.
Import transactions.

(** [hex.EncodeToString] is injective: the bytes are read back from the
    digits. *)
Lemma unhex_hexdigits (b : ascii) :
  ascii_of_N (unhex (hexdigit (N_of_ascii b / 16)) * 16 +
              unhex (hexdigit (N_of_ascii b mod 16))) = b.
Proof. destruct b as [[] [] [] [] [] [] [] []]; vm_compute; reflexivity. Qed.

Lemma DecodeString_EncodeToString (src : string) :
  DecodeString (EncodeToString src) = src.
Proof.
  induction src as [|b src IH]; [reflexivity|].
  cbn [EncodeToString DecodeString]. cbv zeta. rewrite unhex_hexdigits, IH. reflexivity.
Qed.

Lemma EncodeToString_inj (a b : string) :
  EncodeToString a = EncodeToString b -> a = b.
Proof.
  intros H. rewrite <- (DecodeString_EncodeToString a), <- (DecodeString_EncodeToString b).
  rewrite H. reflexivity.
Qed.


(** The signature does not read the signature, the QR code or the download
    URL of the bill. *)
Lemma generateBillSignature_set_Signature (v : string) (e : EBill.t) :
  generateBillSignature (EBill.set_Signature v e) = generateBillSignature e.
Proof. reflexivity. Qed.

Lemma generateBillSignature_set_QRCode (v : string) (e : EBill.t) :
  generateBillSignature (EBill.set_QRCode v e) = generateBillSignature e.
Proof. reflexivity. Qed.


End EBillFacts.

Section EBillClaim.
Context {rt : GoRuntime}.
Import transactions.

(** A timestamp moved within its Unix second leaves the signed fields, and
    so the validation, as they were. *)
Lemma timestamp_within_second_undetected (dt : DonationTransaction.t) (bill : EBill.t)
    (t : time.Time) :
  DonationTransaction.EBill dt = Some bill ->
  time.Unix t = time.Unix (EBill.Timestamp bill) ->
  ValidateEBill (DonationTransaction.set_EBill
                   (Some (spec.mutate_ebill (spec.SetTimestamp t) bill)) dt) =
  ValidateEBill dt.
Proof.
  intros Hbill Hsec. unfold ValidateEBill. rewrite Hbill.
  cbn [DonationTransaction.EBill DonationTransaction.set_EBill].
  unfold generateBillSignature, signatureBytes, signatureData.
  cbn [spec.mutate_ebill EBill.BillID EBill.TransactionID EBill.Amount EBill.Currency
       EBill.Timestamp EBill.NGOID EBill.DonorHash EBill.PaymentMethod EBill.TaxBenefit
       EBill.ReceiptNumber EBill.ValidityPeriod EBill.Signature].
  rewrite Hsec. reflexivity.
Qed.


End EBillClaim.

Section EBillRuns.
Import transactions.
#[local] Existing Instance utc.runtime.



End EBillRuns.


(** ** Blocks and chains *)

Section StringFacts.

Lemma append_length (x y : string) :
  String.length (x ++ y) = (String.length x + String.length y)%nat.
Proof. induction x as [|c x IH]; [reflexivity | simpl; f_equal; exact IH]. Qed.

Lemma append_inv_head (a x y : string) : a ++ x = a ++ y -> x = y.
Proof.
  induction a as [|c a IH]; cbn; intros H; [exact H|].
  injection H as H. exact (IH H).
Qed.

Lemma append_inv_tail (x y b : string) : x ++ b = y ++ b -> x = y.
Proof.
  revert y. induction x as [|c x IH]; intros [|d y] H; simpl in H.
  - reflexivity.
  - apply (f_equal String.length) in H. rewrite ?append_length in H.
    cbn [String.length] in H. rewrite ?append_length in H. lia.
  - apply (f_equal String.length) in H. rewrite ?append_length in H.
    cbn [String.length] in H. rewrite ?append_length in H. lia.
  - injection H as Hc H. rewrite Hc, (IH y H). reflexivity.
Qed.

Lemma Sprintf_d_inj (x y : Z) : Sprintf_d x = Sprintf_d y -> x = y.
Proof. apply pretty_Z_inj. Qed.

End StringFacts.

Section BlockFacts.
Context {rt : GoRuntime}.
Import blockchain.

(** The hash of a block reads neither its hash, nor whether it is
    validated, nor its validators. *)
Lemma calculateHash_set_Hash (v : string) (b : Block) :
  calculateHash (set_Hash v b) = calculateHash b.
Proof. reflexivity. Qed.

Lemma calculateHash_set_Validated (v : bool) (b : Block) :
  calculateHash (set_Validated v b) = calculateHash b.
Proof. reflexivity. Qed.

Lemma calculateHash_set_Validators (v : list Validator) (b : Block) :
  calculateHash (set_Validators v b) = calculateHash b.
Proof. reflexivity. Qed.

(** A detectable mutation of a hashed field changes the text that is
    hashed. *)
Lemma record_mutate_block (m : spec.block_mutation) (b : Block) :
  spec.detectable m b ->
  match m with
  | spec.SetHash _ | spec.SetValidated _ => record (spec.mutate_block m b) = record b
  | _ => record (spec.mutate_block m b) <> record b
  end.
Proof.
  destruct m as [v|v|v|v|v|v|v|v|v]; cbn [spec.detectable spec.mutate_block];
    intros Hd; try reflexivity; unfold record; cbn; intros E; apply Hd.
  - apply Sprintf_d_inj. eapply append_inv_tail, E.
  - apply Sprintf_d_inj.
    do 2 apply append_inv_head in E. eapply append_inv_tail, E.
  - do 3 apply append_inv_head in E. eapply append_inv_tail, E.
  - apply append_inv_head in E. eapply append_inv_tail, E.
  - do 5 apply append_inv_head in E. eapply append_inv_tail, E.
  - apply Sprintf_d_inj.
    do 4 apply append_inv_head in E. eapply append_inv_tail, E.
  - do 6 apply append_inv_head in E. exact E.
Qed.

End BlockFacts.

Section MiningFacts.
Context {rt : GoRuntime}.
Import blockchain.

(** [MineBlock] writes the nonce and the hash only; it stops on a hash with
    the target prefix, which is the hash of the block unless no nonce was
    tried. *)
Lemma mine_loop_some (fuel : nat) (target : string) (b b' : Block) :
  mine_loop fuel target b = Some b' ->
  HasPrefix (Hash b') target = true /\
  (exists nonce hash, b' = set_Hash hash (set_Nonce nonce b)) /\
  (b' = b \/ Hash b' = calculateHash b').
Proof.
  revert b. induction fuel as [|fuel IH]; intros b; cbn [mine_loop];
    destruct (HasPrefix (Hash b) target) eqn:E; intros H; try discriminate H.
  - injection H as <-. split; [exact E|]. split; [|left; reflexivity].
    exists (Nonce b), (Hash b). destruct b; reflexivity.
  - injection H as <-. split; [exact E|]. split; [|left; reflexivity].
    exists (Nonce b), (Hash b). destruct b; reflexivity.
  - cbv zeta in H. apply IH in H. destruct H as (Hp & (nonce & hash & Hb') & Hh).
    split; [exact Hp|]. split.
    + exists nonce, hash. rewrite Hb'. reflexivity.
    + right. destruct Hh as [-> | Hh]; [reflexivity | exact Hh].
Qed.

(** What a call of [AddBlock] that returns has done. *)
Lemma AddBlock_returns (fuel : nat) (bc bc' : Blockchain) (nb nb' : Block)
    (w w' : World) (ok : bool) :
  AddBlock fuel bc nb w = Returned (ok, bc', nb') w' ->
  exists latest nonce hash,
    last (Chain bc) = Some latest /\
    nb' = set_Hash hash (set_Nonce nonce
            (set_Index (Z.of_nat (length (Chain bc)))
               (set_PreviousHash (Hash latest) nb))) /\
    ok = (Hash nb' =? calculateHash nb')%string /\
    bc' = (if ok then set_Chain (Chain bc ++ [nb']) bc else bc) /\
    (HasPrefix (Hash nb) (Repeat "0" (Z.to_nat (Difficulty bc))) = false -> ok = true) /\
    w' = w.
Proof.
  unfold AddBlock, validateBlockInternal, MineBlock.
  destruct (last (Chain bc)) as [latest|] eqn:El; [|discriminate].
  go_run. destruct (Difficulty bc <? 0)%Z; [discriminate|].
  destruct (mine_loop fuel _ _) as [b1|] eqn:Em; [|discriminate].
  apply mine_loop_some in Em. destruct Em as (Hp & (nonce & hash & Hb1) & Hh).
  assert (Hprev : PreviousHash b1 = Hash latest) by (rewrite Hb1; reflexivity).
  rewrite Hprev, String.eqb_refl. cbn [negb].
  assert (Hmined : HasPrefix (Hash nb) (Repeat "0" (Z.to_nat (Difficulty bc))) = false ->
                   Hash b1 = calculateHash b1).
  { intros Hn. destruct Hh as [-> | Hh]; [|exact Hh]. cbn [Hash set_Index set_PreviousHash] in Hp. rewrite Hp in Hn. discriminate Hn. }
  destruct (Hash b1 =? calculateHash b1)%string eqn:Eh; cbn [negb]; rewrite ?Hp; cbn [negb];
    intros H; injection H as <- <- <- <-;
    exists latest, nonce, hash; rewrite Eh;
    (split; [reflexivity|]); (split; [exact Hb1|]); (split; [reflexivity|]);
    (split; [reflexivity|]); (split; [|reflexivity]).
  - intros _. reflexivity.
  - intros Hn. apply Hmined in Hn. apply String.eqb_neq in Eh. contradiction.
Qed.

(** A successful call appends the block as the call leaves it, data as
    given, linked to the tail and hashed. *)
Lemma AddBlock_true (fuel : nat) (bc bc' : Blockchain) (nb nb' : Block) (w w' : World) :
  AddBlock fuel bc nb w = Returned (true, bc', nb') w' ->
  exists latest,
    last (Chain bc) = Some latest /\
    bc' = set_Chain (Chain bc ++ [nb']) bc /\
    Hash nb' = calculateHash nb' /\
    PreviousHash nb' = Hash latest /\
    Index nb' = Z.of_nat (length (Chain bc)) /\
    Data nb' = Data nb /\ Validated nb' = Validated nb /\ w' = w.
Proof.
  intros H. apply AddBlock_returns in H.
  destruct H as (latest & nonce & hash & Hl & Hnb & Hok & Hbc & _ & Hw).
  exists latest. symmetry in Hok. apply String.eqb_eq in Hok.
  split; [exact Hl|]. split; [exact Hbc|]. split; [exact Hok|].
  rewrite Hnb. repeat split; assumption || reflexivity.
Qed.

End MiningFacts.

Section ChainFacts.
Context {rt : GoRuntime}.
Import blockchain.

(** [IsChainValid] answers true only if every block after the genesis block
    is valid and carries the hash of the block before it. *)
Lemma valid_from_lookup (prev : Block) (rest : list Block) :
  valid_from prev rest = true ->
  forall (i : nat) (b : Block), (prev :: rest) !! S i = Some b ->
    IsValid b = true /\ Some (PreviousHash b) = Hash <$> (prev :: rest) !! i.
Proof.
  revert prev. induction rest as [|cur rest IH]; intros prev Hv i b Hb.
  - destruct i; discriminate Hb.
  - cbn [valid_from] in Hv.
    destruct (IsValid cur) eqn:Ev; [|discriminate Hv].
    destruct (PreviousHash cur =? Hash prev)%string eqn:Ep; [|discriminate Hv].
    cbn [negb] in Hv. destruct i as [|i].
    + injection Hb as <-. split; [exact Ev|]. apply String.eqb_eq in Ep.
      cbn. rewrite Ep. reflexivity.
    + exact (IH cur Hv i b Hb).
Qed.

Lemma IsChainValid_lookup (bc : Blockchain) :
  IsChainValid bc = true ->
  forall (i : nat) (b : Block), Chain bc !! S i = Some b ->
    IsValid b = true /\ Some (PreviousHash b) = Hash <$> Chain bc !! i.
Proof.
  unfold IsChainValid. destruct (Chain bc) as [|genesis rest].
  - intros _ i b Hb. discriminate Hb.
  - apply valid_from_lookup.
Qed.

Lemma IsChainValid_invalid_block (bc : Blockchain) (i : nat) (b : Block) :
  Chain bc !! S i = Some b -> IsValid b = false -> IsChainValid bc = false.
Proof.
  intros Hb Hi. destruct (IsChainValid bc) eqn:E; [|reflexivity].
  destruct (IsChainValid_lookup bc E i b Hb) as [Hv _]. congruence.
Qed.

Lemma IsChainValid_broken_link (bc : Blockchain) (i : nat) (prev cur : Block) :
  Chain bc !! i = Some prev -> Chain bc !! S i = Some cur ->
  PreviousHash cur <> Hash prev -> IsChainValid bc = false.
Proof.
  intros Hp Hc Hne. destruct (IsChainValid bc) eqn:E; [|reflexivity].
  destruct (IsChainValid_lookup bc E i cur Hc) as [_ Hl].
  rewrite Hp in Hl. injection Hl as Hl. contradiction.
Qed.

(** The blocks of an admitted chain after the genesis block carry their own
    hash and the hash of the block before them. *)
Lemma NewBlockchain_returns (ngoID chainType : string) (difficulty : Z) (w w' : World)
    (bc : Blockchain) :
  NewBlockchain ngoID chainType difficulty w = Returned bc w' ->
  exists genesis, Chain bc = [genesis].
Proof.
  unfold NewBlockchain, createGenesisBlock, NewBlock, AddValidator. go_run.
  destruct (time.IsZero _); go_run; intros H; injection H as <- _; eexists; reflexivity.
Qed.

Lemma admitted_sealed (bc : Blockchain) :
  spec.admitted bc ->
  Chain bc <> [] /\
  forall (i : nat) (b : Block), Chain bc !! S i = Some b ->
    Hash b = calculateHash b /\ Some (PreviousHash b) = Hash <$> Chain bc !! i.
Proof.
  induction 1 as [ngoID chainType difficulty w w' bc Hnew
                 |fuel bc bc' b b' w w' Hadm [Hne IH] Hadd].
  - apply NewBlockchain_returns in Hnew. destruct Hnew as [genesis ->].
    split; [discriminate|]. intros i b Hb. destruct i; discriminate Hb.
  - apply AddBlock_true in Hadd.
    destruct Hadd as (latest & Hlast & -> & Hh & Hp & _).
    cbn [Chain set_Chain]. split; [destruct (Chain bc); discriminate|].
    intros i c Hc. rewrite last_lookup in Hlast.
    destruct (decide (S i < length (Chain bc))%nat) as [Hlt|Hge].
    + rewrite lookup_app_l in Hc by exact Hlt. rewrite lookup_app_l by lia.
      exact (IH i c Hc).
    + assert (Hi : S i = length (Chain bc)).
      { apply lookup_lt_Some in Hc. rewrite length_app in Hc. cbn in Hc. lia. }
      rewrite lookup_app_r in Hc by lia. rewrite Hi, Nat.sub_diag in Hc.
      injection Hc as <-. split; [exact Hh|].
      rewrite lookup_app_l by lia. rewrite <- Hi in Hlast. cbn [Init.Nat.pred] in Hlast.
      rewrite Hlast, Hp. reflexivity.
Qed.

(** A block that carries its hash is no longer valid after a detectable
    mutation, unless SHA-256 collides. *)
Lemma IsValid_mutate_block (m : spec.block_mutation) (b : Block) :
  Hash b = calculateHash b -> spec.detectable m b ->
  spec.no_collision (record (spec.mutate_block m b)) (record b) ->
  IsValid (spec.mutate_block m b) = false.
Proof.
  intros Hh Hd Hc. pose proof (record_mutate_block m b Hd) as Hr. unfold IsValid.
  destruct m as [v|v|v|v|v|v|v|v|v];
    try (apply andb_false_intro1; apply String.eqb_neq;
         cbn [spec.mutate_block Hash set_Index set_Timestamp set_Data set_PreviousHash
              set_BlockType set_Nonce set_MerkleRoot];
         rewrite Hh; unfold calculateHash, sha256_hex; intros E;
         apply EncodeToString_inj in E; symmetry in E; exact (Hc Hr E)).
  - apply andb_false_intro1, String.eqb_neq. cbn [spec.mutate_block].
    rewrite calculateHash_set_Hash. cbn [Hash set_Hash]. rewrite <- Hh. exact Hd.
  - apply andb_false_intro2. cbn in Hd. rewrite Hd. reflexivity.
Qed.

End ChainFacts.

(** ** Tampering with a chain, and calls of [AddBlock] in a row *)

Section ChainClaims.
Context {rt : GoRuntime}.
Import blockchain.

Lemma replace_block_lookup (bc : Blockchain) (i : nat) (b b' : Block) :
  Chain bc !! i = Some b -> Chain (spec.replace_block i b' bc) !! i = Some b'.
Proof.
  intros Hb. unfold spec.replace_block. cbn [Chain set_Chain].
  apply list_lookup_insert_eq. apply lookup_lt_Some in Hb. exact Hb.
Qed.

(** C6, amended.  On a chain built by [NewBlockchain] and successful calls of
    [AddBlock], [IsChainValid] returns false after a mutation of a block
    after the genesis block that gives the index, the previous hash, the
    block type, the nonce or the Merkle root another value, the timestamp
    other nanoseconds or the data another JSON encoding (provided SHA-256
    tells the new hashed text from the old), or that gives the hash another
    value, or that sets [Validated] to false.  On any chain, [IsChainValid]
    returns false when a block does not carry the hash of the block before
    it. *)
Theorem IsChainValid_false_after_detectable_mutation (bc : Blockchain) (i : nat)
    (b : Block) (m : spec.block_mutation) :
  spec.admitted bc ->
  Chain bc !! S i = Some b ->
  spec.detectable m b ->
  spec.no_collision (record (spec.mutate_block m b)) (record b) ->
  IsChainValid (spec.replace_block (S i) (spec.mutate_block m b) bc) = false /\
  forall (c : Blockchain) (j : nat) (prev cur : Block),
    Chain c !! j = Some prev -> Chain c !! S j = Some cur ->
    PreviousHash cur <> Hash prev -> IsChainValid c = false.
Proof.
  intros Hadm Hb Hd Hc. split.
  - destruct (admitted_sealed bc Hadm) as [_ Hsealed].
    destruct (Hsealed i b Hb) as [Hh _].
    apply (IsChainValid_invalid_block _ i (spec.mutate_block m b)).
    + apply (replace_block_lookup bc (S i) b), Hb.
    + apply IsValid_mutate_block; assumption.
  - intros c j prev cur. apply IsChainValid_broken_link.
Qed.

Lemma AddBlock_Difficulty (fuel : nat) (bc bc' : Blockchain) (nb nb' : Block)
    (w w' : World) (ok : bool) :
  AddBlock fuel bc nb w = Returned (ok, bc', nb') w' -> Difficulty bc' = Difficulty bc.
Proof.
  intros H. apply AddBlock_returns in H.
  destruct H as (latest & nonce & hash & _ & _ & _ & -> & _).
  destruct ok; reflexivity.
Qed.

(** C5 fails on the code.  [AddBlock] writes the hash of the tail and the
    next index into the block it is given before it mines and checks it: of
    the calls the lock serves one after the other, every one that returns
    answers true and appends its block, whatever tail the block was made
    for, as long as the hash the block arrives with does not already start
    with the zeros of the difficulty. *)
Theorem serialized_AddBlock_admits_every_block (fuel : nat) (bc bc' : Blockchain)
    (blocks : list Block) (w w' : World) (oks : list bool) :
  Forall (fun b => HasPrefix (Hash b) (Repeat "0" (Z.to_nat (Difficulty bc))) = false)
         blocks ->
  spec.serialized fuel bc blocks w = Returned (oks, bc') w' ->
  oks = repeat true (length blocks) /\
  length (Chain bc') = (length (Chain bc) + length blocks)%nat.
Proof.
  revert bc w oks. induction blocks as [|b rest IH]; intros bc w oks Hfresh Hrun.
  - cbn [spec.serialized] in Hrun. go_run_in Hrun. injection Hrun as <- <- _.
    split; [reflexivity | cbn; lia].
  - cbn [spec.serialized] in Hrun. apply bind_inv in Hrun.
    destruct Hrun as ([[ok bc1] b'] & w1 & Hadd & Hrun).
    apply bind_inv in Hrun. destruct Hrun as ([oks' bc2] & w2 & Hrest & Hret).
    go_run_in Hret. injection Hret as <- <- <-.
    apply AddBlock_returns in Hadd.
    destruct Hadd as (latest & nonce & hash & _ & _ & _ & Hbc1 & Hok & _).
    inversion Hfresh as [|? ? Hb Hrest']; subst.
    rewrite (Hok Hb) in Hrest |- *.
    destruct (IH (set_Chain (Chain bc ++ [b']) bc) w1 oks' Hrest' Hrest) as [-> Hlen].
    split; [reflexivity|]. rewrite Hlen. cbn [Chain set_Chain length].
    rewrite length_app. cbn. lia.
Qed.

End ChainClaims.

Section ChainRuns.
Import blockchain.
#[local] Existing Instance utc.runtime.

(** [expose l] writes the list [l] out. *)
Ltac expose l :=
  let v := eval vm_compute in l in
  let E := fresh "E" in
  assert (E : l = v) by (vm_compute; reflexivity); rewrite E; clear E.

Lemma chain_of_admitted (validated : bool) : spec.admitted (demo.chain_of validated).
Proof.
  apply (spec.admitted_add 4096 demo.chain0 (demo.chain_of validated)
           (if validated then Validate demo.block1 else demo.block1)
           (demo.block_of validated) demo.world2 demo.world2).
  - apply (spec.admitted_new "NGO001" "donation" 2 demo.world demo.world1).
    vm_compute. reflexivity.
  - destruct validated; vm_compute; reflexivity.
Qed.

(** C6, as stated, fails.  On the chain of a block admitted as [NewBlock]
    makes it, [IsChainValid] returns true after [Validated] is set on the
    block; on the chain of a validated block it returns true after the
    amount in the data of the block, a [float64], is replaced by the same
    number as an [int]. *)
Lemma unhashed_mutations_pass_IsChainValid :
  let validate := spec.SetValidated true in
  let retype := spec.SetData demo.retyped_data in
  (spec.admitted (demo.chain_of false) /\
   Chain (demo.chain_of false) !! 1%nat = Some (demo.block_of false) /\
   spec.mutate_block validate (demo.block_of false) <> demo.block_of false /\
   IsChainValid (spec.replace_block 1 (spec.mutate_block validate (demo.block_of false))
                   (demo.chain_of false)) = true) /\
  (spec.admitted (demo.chain_of true) /\
   Chain (demo.chain_of true) !! 1%nat = Some (demo.block_of true) /\
   spec.mutate_block retype (demo.block_of true) <> demo.block_of true /\
   IsChainValid (spec.replace_block 1 (spec.mutate_block retype (demo.block_of true))
                   (demo.chain_of true)) = true).
Proof.
  cbv zeta. split; (split; [apply chain_of_admitted|]);
    (split; [vm_compute; reflexivity|]); (split; [|vm_compute; reflexivity]).
  - intros E. apply (f_equal Validated) in E. revert E. vm_compute. intros E. discriminate E.
  - intros E. apply (f_equal Data) in E. revert E. vm_compute. intros E. discriminate E.
Qed.

Lemma IsChainValid_false_after_detectable_mutation_witness :
  IsChainValid (spec.replace_block 1
                  (spec.mutate_block (spec.SetData demo.tampered_data) (demo.block_of true))
                  (demo.chain_of true)) = false /\
  IsChainValid (spec.replace_block 1
                  (spec.mutate_block (spec.SetPreviousHash "invalid_hash")
                     (demo.block_of true))
                  (demo.chain_of true)) = false.
Proof.
  destruct (IsChainValid_false_after_detectable_mutation (demo.chain_of true) 0
              (demo.block_of true) (spec.SetData demo.tampered_data)) as [Hdata Hlink].
  - apply chain_of_admitted.
  - vm_compute. reflexivity.
  - cbn [spec.detectable]. vm_compute. intros E. discriminate E.
  - intros _. vm_compute. intros E. discriminate E.
  - split; [exact Hdata|].
    apply (Hlink _ 0%nat demo.genesis0
             (spec.mutate_block (spec.SetPreviousHash "invalid_hash") (demo.block_of true))).
    + vm_compute. reflexivity.
    + vm_compute. reflexivity.
    + vm_compute. intros E. discriminate E.
Defined.

Lemma serialized_AddBlock_admits_every_block_witness :
  Forall (spec.made_for_tail demo.chain0) demo.race_blocks /\
  length demo.race_blocks = 3%nat /\
  spec.serialized 4096 demo.chain0 demo.race_blocks demo.race_world =
    Returned (demo.race_answers, demo.race_chain) demo.race_world /\
  demo.race_answers = [true; true; true] /\
  length (Chain demo.race_chain) = (length (Chain demo.chain0) + 3)%nat.
Proof.
  split; [|split; [vm_compute; reflexivity|]].
  - expose demo.race_blocks. unfold spec.made_for_tail.
    repeat constructor; vm_compute; reflexivity.
  - assert (Hrun : spec.serialized 4096 demo.chain0 demo.race_blocks demo.race_world =
                   Returned (demo.race_answers, demo.race_chain) demo.race_world)
      by (vm_compute; reflexivity).
    split; [exact Hrun|].
    destruct (serialized_AddBlock_admits_every_block 4096 demo.chain0 demo.race_chain
                demo.race_blocks demo.race_world demo.race_world demo.race_answers)
      as [Hoks Hlen].
    + expose demo.race_blocks. repeat constructor; vm_compute; reflexivity.
    + exact Hrun.
    + split; [rewrite Hoks | rewrite Hlen]; vm_compute; reflexivity.
Defined.

(** The second call of [TestAddBlock], on a block made for the hash
    ["invalid_hash"], answers true as well. *)
Lemma stale_previous_hash_is_admitted :
  (fun '(first, second, bc) => (first, second, length (Chain bc))) <$>
    demo.value (demo.stale_run demo.world1) = Some (true, true, 3%nat).
Proof. vm_compute. reflexivity. Qed.

End ChainRuns.

(** ** Donations *)


Section DonationFacts.
Context {rt : GoRuntime}.
Import transactions entities platform platform.NGOTransparencyPlatform.





End DonationFacts.

Section DonationClaims.
Context {rt : GoRuntime}.
Import transactions entities platform platform.NGOTransparencyPlatform.


End DonationClaims.

Section DonationRuns.
Import transactions entities platform platform.NGOTransparencyPlatform.
#[local] Existing Instance utc.runtime.



(** C4 fails on the code.  After the three donations of 50000, 25000 and
    30000 the NGO has received 103950, the sum of the net amounts, and the
    donations were charged the fees 500, 250 and 300, which make 1050; the
    statistics report [TotalDonations * PlatformFee], the fee on the net
    amounts, 1039.5, as the fee collected. *)
Theorem platform_fee_collected_is_taken_of_the_net_amounts :
  demo.audit_books (demo.three_donations demo.world) =
    Some (demo.mkBooks 103950 (2079 # 2) [500; 250; 300]%Q) /\
  (500 + 250 + 300 == 1050)%Q /\
  ~ (2079 # 2 == 1050)%Q.
Proof.
  split; [vm_compute; reflexivity|]. split; [reflexivity|].
  unfold Qeq. cbn. lia.
Qed.

End DonationRuns.
